(** * ChemcrowToolkit: the toolkit adapter of [utu/tools/chemcrow_toolkit.py]

    The adapter reads a configuration mapping and the process environment,
    builds one handle per chemistry capability and forwards every tool call
    to the handle's [_run].  The chemistry library, the LLM client and the
    float printer of the Python runtime are external: they are the fields of
    [Extern], and every result below holds for all of them. *)

From Stdlib Require Import ZArith String Floats DecimalString.
From stdpp Require Import base option gmap strings.

Set Warnings "-inexact-float".
Local Open Scope string_scope.

(** ** Python values and exceptions *)

(** The values that configuration entries, credentials and tool results
    take: [None], booleans, integers, floats and strings. *)
Inductive value : Type :=
  | VNone
  | VBool (b : bool)
  | VInt (z : Z)
  | VFloat (f : float)
  | VStr (s : string).

(** Python truth value, as tested by [if x:] and by [x or y]. *)
Definition truthy (v : value) : bool :=
  match v with
  | VNone => false
  | VBool b => b
  | VInt z => negb (z =? 0)%Z
  | VFloat f => negb (PrimFloat.eqb f 0%float)
  | VStr s => negb (String.eqb s EmptyString)
  end.

(** [a or b] *)
Definition py_or (a b : value) : value := if truthy a then a else b.

(** [isinstance(v, str)] *)
Definition is_str (v : value) : bool :=
  match v with VStr _ => true | _ => false end.

Inductive exn : Type :=
  | AttributeError
  | ImportError
  | ExternalError (msg : string).

(** A call either returns or raises. *)
Inductive result (A : Type) : Type :=
  | Ok (a : A)
  | Raise (e : exn).
Arguments Ok {A} a.
Arguments Raise {A} e.

#[export] Instance result_ret : MRet result := fun _ a => Ok a.
#[export] Instance result_bind : MBind result := fun _ _ f r =>
  match r with Ok a => f a | Raise e => Raise e end.

Definition returns {A} (r : result A) : bool :=
  match r with Ok _ => true | Raise _ => false end.

(** [d.get(k, dflt)]; [d.get(k)] is [dict_get d k VNone]. *)
Definition dict_get (d : gmap string value) (k : string) (dflt : value) : value :=
  default dflt (d !! k).

(** [os.getenv(k)] *)
Definition getenv (env : gmap string string) (k : string) : value :=
  match env !! k with Some s => VStr s | None => VNone end.

(** ** The external collaborators *)

(** A chemcrow tool object: all the adapter uses of it is [_run]. *)
Record Tool : Type := { _run : string -> result value }.

(** The eighteen names imported from [chemcrow.tools], each a constructor
    call that returns a tool or raises. *)
Record Tools (LLM : Type) : Type := {
  ControlChemCheck : result Tool;
  ExplosiveCheck : result Tool;
  FuncGroups : result Tool;
  GetMoleculePrice : value -> result Tool;
  MolSimilarity : result Tool;
  PatentCheck : result Tool;
  Query2CAS : result Tool;
  Query2SMILES : value -> result Tool;
  RXNPredict : value -> result Tool;
  RXNPredictLocal : result Tool;
  RXNRetrosynthesis : value -> value -> result Tool;
  RXNRetrosynthesisLocal : result Tool;
  SafetySummary : LLM -> result Tool;
  Scholar2ResultLLM : LLM -> value -> value -> result Tool;
  SMILES2Name : result Tool;
  SMILES2Weight : result Tool;
  SimilarControlChemCheck : result Tool;
  WebSearch : value -> result Tool;
}.
Arguments ControlChemCheck {LLM} _.
Arguments ExplosiveCheck {LLM} _.
Arguments FuncGroups {LLM} _.
Arguments GetMoleculePrice {LLM} _ _.
Arguments MolSimilarity {LLM} _.
Arguments PatentCheck {LLM} _.
Arguments Query2CAS {LLM} _.
Arguments Query2SMILES {LLM} _ _.
Arguments RXNPredict {LLM} _ _.
Arguments RXNPredictLocal {LLM} _.
Arguments RXNRetrosynthesis {LLM} _ _ _.
Arguments RXNRetrosynthesisLocal {LLM} _.
Arguments SafetySummary {LLM} _ _.
Arguments Scholar2ResultLLM {LLM} _ _ _ _.
Arguments SMILES2Name {LLM} _.
Arguments SMILES2Weight {LLM} _.
Arguments SimilarControlChemCheck {LLM} _.
Arguments WebSearch {LLM} _ _.

(** Everything the adapter calls but does not define.
    [ChatOpenAI model_name openai_api_key openai_api_base temperature] is
    the LLM client constructor; [chemcrow_tools] is the outcome of the
    [from chemcrow.tools import (...)] statement inside [__init__];
    [float_repr] is the runtime's [str] on floats. *)
Record Extern : Type := {
  LLM : Type;
  ChatOpenAI : value -> value -> value -> value -> result LLM;
  chemcrow_tools : result (Tools LLM);
  float_repr : float -> string;
}.

(** ** The adapter *)

Section Adapter.
Context (X : Extern).

(** [str(v)] *)
Definition py_str (v : value) : string :=
  match v with
  | VNone => "None"
  | VBool true => "True"
  | VBool false => "False"
  | VInt z => NilZero.string_of_int (Z.to_int z)
  | VFloat f => float_repr X f
  | VStr s => s
  end.

(** The attributes of a [ChemcrowToolkit] instance.  [config] is the
    mapping [self.config.config] left by the base class; a handle
    attribute holds a tool or [None]. *)
Record Toolkit : Type := {
  config : gmap string value;
  llm : LLM X;
  api_keys : gmap string value;
  query2cas_tool : option Tool;
  query2smiles_tool : option Tool;
  smiles2name_tool : option Tool;
  mol_similarity_tool : option Tool;
  smiles2weight_tool : option Tool;
  func_groups_tool : option Tool;
  patent_check_tool : option Tool;
  explosive_check_tool : option Tool;
  control_chem_check_tool : option Tool;
  similar_control_chem_check_tool : option Tool;
  safety_summary_tool : option Tool;
  scholar_tool : option Tool;
  molecule_price_tool : option Tool;
  web_search_tool : option Tool;
  rxn_predict_tool : option Tool;
  rxn_retro_tool : option Tool;
}.

(** The dictionary literal assigned to [self.api_keys]. *)
Definition make_api_keys (cfg : gmap string value) (env : gmap string string)
    (openai_api_key : value) : gmap string value :=
  list_to_map [
    ("OPENAI_API_KEY", openai_api_key);
    ("SERP_API_KEY",
      py_or (dict_get cfg "serp_api_key" VNone) (getenv env "SERP_API_KEY"));
    ("CHEMSPACE_API_KEY",
      py_or (dict_get cfg "chemspace_api_key" VNone) (getenv env "CHEMSPACE_API_KEY"));
    ("RXN4CHEM_API_KEY",
      py_or (dict_get cfg "rxn4chem_api_key" VNone) (getenv env "RXN4CHEM_API_KEY"));
    ("SEMANTIC_SCHOLAR_API_KEY",
      py_or (dict_get cfg "semantic_scholar_api_key" VNone)
            (getenv env "SEMANTIC_SCHOLAR_API_KEY"))
  ].

(** [ChemcrowToolkit.__init__], statement by statement.  Nothing is
    caught: the first external call that raises ends the construction. *)
Definition __init__ (cfg : gmap string value) (env : gmap string string)
    : result Toolkit :=
  let openai_api_key :=
    py_or (dict_get cfg "openai_api_key" VNone) (getenv env "OPENAI_API_KEY") in
  let llm_model := dict_get cfg "llm_model" (VStr "gpt-3.5-turbo") in
  let openai_api_base := dict_get cfg "openai_api_base" VNone in
  self_llm ← ChatOpenAI X llm_model openai_api_key openai_api_base
               (dict_get cfg "temperature" (VFloat 0.1));
  let keys := make_api_keys cfg env openai_api_key in
  T ← chemcrow_tools X;
  q2c ← Query2CAS T;
  q2s ← Query2SMILES T (dict_get keys "CHEMSPACE_API_KEY" VNone);
  s2n ← SMILES2Name T;
  sim ← MolSimilarity T;
  s2w ← SMILES2Weight T;
  fg ← FuncGroups T;
  pat ← PatentCheck T;
  expl ← ExplosiveCheck T;
  ctl ← ControlChemCheck T;
  sctl ← SimilarControlChemCheck T;
  safety ← SafetySummary T self_llm;
  scholar ← Scholar2ResultLLM T self_llm
              (dict_get keys "OPENAI_API_KEY" VNone)
              (dict_get keys "SEMANTIC_SCHOLAR_API_KEY" VNone);
  price ←
    (if truthy (dict_get keys "CHEMSPACE_API_KEY" VNone)
     then t ← GetMoleculePrice T (dict_get keys "CHEMSPACE_API_KEY" VNone); Ok (Some t)
     else Ok None);
  web ←
    (if truthy (dict_get keys "SERP_API_KEY" VNone)
     then t ← WebSearch T (dict_get keys "SERP_API_KEY" VNone); Ok (Some t)
     else Ok None);
  let local_rxn := dict_get cfg "local_rxn" (VBool false) in
  rxn ←
    (if truthy local_rxn
     then p ← RXNPredictLocal T; r ← RXNRetrosynthesisLocal T; Ok (Some p, Some r)
     else if truthy (dict_get keys "RXN4CHEM_API_KEY" VNone)
     then p ← RXNPredict T (dict_get keys "RXN4CHEM_API_KEY" VNone);
          r ← RXNRetrosynthesis T (dict_get keys "RXN4CHEM_API_KEY" VNone)
                (dict_get keys "OPENAI_API_KEY" VNone);
          Ok (Some p, Some r)
     else Ok (None, None));
  Ok {| config := cfg; llm := self_llm; api_keys := keys;
        query2cas_tool := Some q2c;
        query2smiles_tool := Some q2s;
        smiles2name_tool := Some s2n;
        mol_similarity_tool := Some sim;
        smiles2weight_tool := Some s2w;
        func_groups_tool := Some fg;
        patent_check_tool := Some pat;
        explosive_check_tool := Some expl;
        control_chem_check_tool := Some ctl;
        similar_control_chem_check_tool := Some sctl;
        safety_summary_tool := Some safety;
        scholar_tool := Some scholar;
        molecule_price_tool := price;
        web_search_tool := web;
        rxn_predict_tool := rxn.1;
        rxn_retro_tool := rxn.2 |}.

(** [h._run(q)] on a handle attribute: on [None] the attribute access
    raises [AttributeError]. *)
Definition call_run (h : option Tool) (q : string) : result value :=
  match h with
  | Some t => _run t q
  | None => Raise AttributeError
  end.

(** [h is None] *)
Definition is_none (h : option Tool) : bool :=
  match h with None => true | Some _ => false end.

(** *** The sixteen registered tool methods

    Each is [async] in the source and awaits nothing: the body is one
    blocking call, modelled as the call. *)

Definition query_molecule_cas (self : Toolkit) (molecule_query : string) : result value :=
  call_run (query2cas_tool self) molecule_query.

Definition convert_name_to_smiles (self : Toolkit) (molecule_name : string) : result value :=
  call_run (query2smiles_tool self) molecule_name.

Definition convert_smiles_to_name (self : Toolkit) (smiles : string) : result value :=
  call_run (smiles2name_tool self) smiles.

Definition get_molecular_weight (self : Toolkit) (smiles : string) : result value :=
  res ← call_run (smiles2weight_tool self) smiles;
  Ok (if negb (is_str res) then VStr (py_str res) else res).

Definition get_functional_groups (self : Toolkit) (smiles : string) : result value :=
  call_run (func_groups_tool self) smiles.

Definition check_molecule_similarity (self : Toolkit) (smiles1 smiles2 : string)
    : result value :=
  call_run (mol_similarity_tool self) (smiles1 ++ " " ++ smiles2).

Definition check_patent (self : Toolkit) (molecule_smiles : string) : result value :=
  call_run (patent_check_tool self) molecule_smiles.

Definition check_explosive (self : Toolkit) (molecule_smiles : string) : result value :=
  call_run (explosive_check_tool self) molecule_smiles.

Definition check_controlled_chemical (self : Toolkit) (molecule_smiles : string)
    : result value :=
  call_run (control_chem_check_tool self) molecule_smiles.

Definition check_similar_controlled_chemicals (self : Toolkit) (molecule_smiles : string)
    : result value :=
  call_run (similar_control_chem_check_tool self) molecule_smiles.

Definition get_safety_summary (self : Toolkit) (molecule_query : string) : result value :=
  call_run (safety_summary_tool self) molecule_query.

Definition search_scholarly_literature (self : Toolkit) (query : string) : result value :=
  call_run (scholar_tool self) query.

Definition web_search_chemical (self : Toolkit) (query : string) : result value :=
  if is_none (web_search_tool self)
  then Ok (VStr "Web search tool not available. Set SERP_API_KEY environment variable.")
  else call_run (web_search_tool self) query.

Definition get_molecule_price (self : Toolkit) (molecule_smiles : string) : result value :=
  if is_none (molecule_price_tool self)
  then Ok (VStr "Molecule price lookup not available. Set CHEMSPACE_API_KEY environment variable.")
  else call_run (molecule_price_tool self) molecule_smiles.

Definition predict_reaction (self : Toolkit) (reactants_smiles : string) : result value :=
  if is_none (rxn_predict_tool self)
  then Ok (VStr ("Reaction prediction tool not available. "
                 ++ "Set RXN4CHEM_API_KEY environment variable or enable local_rxn."))
  else call_run (rxn_predict_tool self) reactants_smiles.

Definition retrosynthesis_planning (self : Toolkit) (target_smiles : string) : result value :=
  if is_none (rxn_retro_tool self)
  then Ok (VStr ("Retrosynthesis tool not available. "
                 ++ "Set RXN4CHEM_API_KEY environment variable or enable local_rxn."))
  else call_run (rxn_retro_tool self) target_smiles.

(** *** The tool registry

    [register_tool] makes each method callable by name.  [invoke] is that
    dispatch; [b] is the second positional argument, which only
    [check_molecule_similarity] takes. *)

Inductive tool_name : Type :=
  | T_query_molecule_cas
  | T_convert_name_to_smiles
  | T_convert_smiles_to_name
  | T_get_molecular_weight
  | T_get_functional_groups
  | T_check_molecule_similarity
  | T_check_patent
  | T_check_explosive
  | T_check_controlled_chemical
  | T_check_similar_controlled_chemicals
  | T_get_safety_summary
  | T_search_scholarly_literature
  | T_web_search_chemical
  | T_get_molecule_price
  | T_predict_reaction
  | T_retrosynthesis_planning.

Definition invoke (m : tool_name) (self : Toolkit) (a b : string) : result value :=
  match m with
  | T_query_molecule_cas => query_molecule_cas self a
  | T_convert_name_to_smiles => convert_name_to_smiles self a
  | T_convert_smiles_to_name => convert_smiles_to_name self a
  | T_get_molecular_weight => get_molecular_weight self a
  | T_get_functional_groups => get_functional_groups self a
  | T_check_molecule_similarity => check_molecule_similarity self a b
  | T_check_patent => check_patent self a
  | T_check_explosive => check_explosive self a
  | T_check_controlled_chemical => check_controlled_chemical self a
  | T_check_similar_controlled_chemicals => check_similar_controlled_chemicals self a
  | T_get_safety_summary => get_safety_summary self a
  | T_search_scholarly_literature => search_scholarly_literature self a
  | T_web_search_chemical => web_search_chemical self a
  | T_get_molecule_price => get_molecule_price self a
  | T_predict_reaction => predict_reaction self a
  | T_retrosynthesis_planning => retrosynthesis_planning self a
  end.

(** The handle attribute a method delegates to. *)
Definition handle (m : tool_name) (self : Toolkit) : option Tool :=
  match m with
  | T_query_molecule_cas => query2cas_tool self
  | T_convert_name_to_smiles => query2smiles_tool self
  | T_convert_smiles_to_name => smiles2name_tool self
  | T_get_molecular_weight => smiles2weight_tool self
  | T_get_functional_groups => func_groups_tool self
  | T_check_molecule_similarity => mol_similarity_tool self
  | T_check_patent => patent_check_tool self
  | T_check_explosive => explosive_check_tool self
  | T_check_controlled_chemical => control_chem_check_tool self
  | T_check_similar_controlled_chemicals => similar_control_chem_check_tool self
  | T_get_safety_summary => safety_summary_tool self
  | T_search_scholarly_literature => scholar_tool self
  | T_web_search_chemical => web_search_tool self
  | T_get_molecule_price => molecule_price_tool self
  | T_predict_reaction => rxn_predict_tool self
  | T_retrosynthesis_planning => rxn_retro_tool self
  end.

(** The string a method hands to [_run]. *)
Definition run_argument (m : tool_name) (a b : string) : string :=
  match m with
  | T_check_molecule_similarity => a ++ " " ++ b
  | _ => a
  end.

(** The methods whose body starts with an [is None] test, and the string
    each returns when the test succeeds. *)
Definition unavailable_message (m : tool_name) : option string :=
  match m with
  | T_web_search_chemical =>
      Some "Web search tool not available. Set SERP_API_KEY environment variable."
  | T_get_molecule_price =>
      Some "Molecule price lookup not available. Set CHEMSPACE_API_KEY environment variable."
  | T_predict_reaction =>
      Some "Reaction prediction tool not available. Set RXN4CHEM_API_KEY environment variable or enable local_rxn."
  | T_retrosynthesis_planning =>
      Some "Retrosynthesis tool not available. Set RXN4CHEM_API_KEY environment variable or enable local_rxn."
  | _ => None
  end.

End Adapter.

Arguments config {X} _.
Arguments llm {X} _.
Arguments api_keys {X} _.
Arguments query2cas_tool {X} _.
Arguments query2smiles_tool {X} _.
Arguments smiles2name_tool {X} _.
Arguments mol_similarity_tool {X} _.
Arguments smiles2weight_tool {X} _.
Arguments func_groups_tool {X} _.
Arguments patent_check_tool {X} _.
Arguments explosive_check_tool {X} _.
Arguments control_chem_check_tool {X} _.
Arguments similar_control_chem_check_tool {X} _.
Arguments safety_summary_tool {X} _.
Arguments scholar_tool {X} _.
Arguments molecule_price_tool {X} _.
Arguments web_search_tool {X} _.
Arguments rxn_predict_tool {X} _.
Arguments rxn_retro_tool {X} _.
Arguments query_molecule_cas {X} _ _.
Arguments convert_name_to_smiles {X} _ _.
Arguments convert_smiles_to_name {X} _ _.
Arguments get_molecular_weight {X} _ _.
Arguments get_functional_groups {X} _ _.
Arguments check_molecule_similarity {X} _ _ _.
Arguments check_patent {X} _ _.
Arguments check_explosive {X} _ _.
Arguments check_controlled_chemical {X} _ _.
Arguments check_similar_controlled_chemicals {X} _ _.
Arguments get_safety_summary {X} _ _.
Arguments search_scholarly_literature {X} _ _.
Arguments web_search_chemical {X} _ _.
Arguments get_molecule_price {X} _ _.
Arguments predict_reaction {X} _ _.
Arguments retrosynthesis_planning {X} _ _.
Arguments invoke {X} _ _ _ _.
Arguments handle {X} _ _.

(** ** Credentials *)

(** The five credentials [__init__] resolves, with the configuration option
    and the environment variable each is read from. *)
Inductive credential : Type :=
  | OpenAI
  | Serp
  | Chemspace
  | Rxn4chem
  | SemanticScholar.

Definition config_option (c : credential) : string :=
  match c with
  | OpenAI => "openai_api_key"
  | Serp => "serp_api_key"
  | Chemspace => "chemspace_api_key"
  | Rxn4chem => "rxn4chem_api_key"
  | SemanticScholar => "semantic_scholar_api_key"
  end.

Definition env_var (c : credential) : string :=
  match c with
  | OpenAI => "OPENAI_API_KEY"
  | Serp => "SERP_API_KEY"
  | Chemspace => "CHEMSPACE_API_KEY"
  | Rxn4chem => "RXN4CHEM_API_KEY"
  | SemanticScholar => "SEMANTIC_SCHOLAR_API_KEY"
  end.

(** [config.get(option) or os.getenv(VAR)], the expression every credential
    is resolved with. *)
Definition resolve (cfg : gmap string value) (env : gmap string string)
    (c : credential) : value :=
  py_or (dict_get cfg (config_option c) VNone) (getenv env (env_var c)).

(** The adapter is constructed without credential [c]: the configuration
    gives no usable value for it (no entry, [None] or the empty string) and
    the environment variable is unset or empty. *)
Definition credential_missing (cfg : gmap string value) (env : gmap string string)
    (c : credential) : bool :=
  negb (truthy (dict_get cfg (config_option c) VNone))
  && negb (truthy (getenv env (env_var c))).

(** [local_rxn] as [__init__] tests it. *)
Definition local_rxn_enabled (cfg : gmap string value) : bool :=
  truthy (dict_get cfg "local_rxn" (VBool false)).

(** ** The state a construction leaves behind *)

(** Constructor call [c] returned the tool that attribute [h] holds. *)
Definition built (c : result Tool) (h : option Tool) : Prop :=
  exists t, c = Ok t /\ h = Some t.

(** The LLM client call of [__init__]. *)
Definition build_llm (X : Extern) (cfg : gmap string value) (env : gmap string string)
    : result (LLM X) :=
  ChatOpenAI X (dict_get cfg "llm_model" (VStr "gpt-3.5-turbo"))
    (resolve cfg env OpenAI)
    (dict_get cfg "openai_api_base" VNone)
    (dict_get cfg "temperature" (VFloat 0.1)).

(** The attributes after [__init__] returned, given the client [l] and the
    imported names [T]. *)
Record wired {X : Extern} (cfg : gmap string value) (env : gmap string string)
    (l : LLM X) (T : Tools (LLM X)) (tk : Toolkit X) : Prop := {
  w_config : config tk = cfg;
  w_llm : llm tk = l;
  w_api_keys : api_keys tk = make_api_keys cfg env (resolve cfg env OpenAI);
  w_query2cas : built (Query2CAS T) (query2cas_tool tk);
  w_query2smiles :
    built (Query2SMILES T (resolve cfg env Chemspace)) (query2smiles_tool tk);
  w_smiles2name : built (SMILES2Name T) (smiles2name_tool tk);
  w_mol_similarity : built (MolSimilarity T) (mol_similarity_tool tk);
  w_smiles2weight : built (SMILES2Weight T) (smiles2weight_tool tk);
  w_func_groups : built (FuncGroups T) (func_groups_tool tk);
  w_patent_check : built (PatentCheck T) (patent_check_tool tk);
  w_explosive_check : built (ExplosiveCheck T) (explosive_check_tool tk);
  w_control_chem_check : built (ControlChemCheck T) (control_chem_check_tool tk);
  w_similar_control_chem_check :
    built (SimilarControlChemCheck T) (similar_control_chem_check_tool tk);
  w_safety_summary : built (SafetySummary T l) (safety_summary_tool tk);
  w_scholar :
    built (Scholar2ResultLLM T l (resolve cfg env OpenAI) (resolve cfg env SemanticScholar))
          (scholar_tool tk);
  w_molecule_price :
    if truthy (resolve cfg env Chemspace)
    then built (GetMoleculePrice T (resolve cfg env Chemspace)) (molecule_price_tool tk)
    else molecule_price_tool tk = None;
  w_web_search :
    if truthy (resolve cfg env Serp)
    then built (WebSearch T (resolve cfg env Serp)) (web_search_tool tk)
    else web_search_tool tk = None;
  w_rxn :
    if local_rxn_enabled cfg
    then built (RXNPredictLocal T) (rxn_predict_tool tk)
         /\ built (RXNRetrosynthesisLocal T) (rxn_retro_tool tk)
    else if truthy (resolve cfg env Rxn4chem)
    then built (RXNPredict T (resolve cfg env Rxn4chem)) (rxn_predict_tool tk)
         /\ built (RXNRetrosynthesis T (resolve cfg env Rxn4chem) (resolve cfg env OpenAI))
                  (rxn_retro_tool tk)
    else rxn_predict_tool tk = None /\ rxn_retro_tool tk = None;
}.

(** Every constructor of the imported library returns, whatever it is given. *)
Record constructors_return {L : Type} (T : Tools L) : Prop := {
  cr_ControlChemCheck : returns (ControlChemCheck T) = true;
  cr_ExplosiveCheck : returns (ExplosiveCheck T) = true;
  cr_FuncGroups : returns (FuncGroups T) = true;
  cr_GetMoleculePrice : forall k, returns (GetMoleculePrice T k) = true;
  cr_MolSimilarity : returns (MolSimilarity T) = true;
  cr_PatentCheck : returns (PatentCheck T) = true;
  cr_Query2CAS : returns (Query2CAS T) = true;
  cr_Query2SMILES : forall k, returns (Query2SMILES T k) = true;
  cr_RXNPredict : forall k, returns (RXNPredict T k) = true;
  cr_RXNPredictLocal : returns (RXNPredictLocal T) = true;
  cr_RXNRetrosynthesis : forall k o, returns (RXNRetrosynthesis T k o) = true;
  cr_RXNRetrosynthesisLocal : returns (RXNRetrosynthesisLocal T) = true;
  cr_SafetySummary : forall l, returns (SafetySummary T l) = true;
  cr_Scholar2ResultLLM : forall l o s, returns (Scholar2ResultLLM T l o s) = true;
  cr_SMILES2Name : returns (SMILES2Name T) = true;
  cr_SMILES2Weight : returns (SMILES2Weight T) = true;
  cr_SimilarControlChemCheck : returns (SimilarControlChemCheck T) = true;
  cr_WebSearch : forall k, returns (WebSearch T k) = true;
}.

(** ** Stand-in collaborators

    A chemistry library whose tools answer with their own name, the
    credentials they were built with and the query; an LLM client that is
    built from any arguments. *)

Definition show (v : value) : string :=
  match v with
  | VNone => "None"
  | VStr s => s
  | _ => "?"
  end.

Definition echo (tag : string) : Tool :=
  {| _run q := Ok (VStr (tag ++ ": " ++ q)) |}.

Definition stub_tools_with (cas weight : Tool) : Tools unit := {|
  ControlChemCheck := Ok (echo "ControlChemCheck");
  ExplosiveCheck := Ok (echo "ExplosiveCheck");
  FuncGroups := Ok (echo "FuncGroups");
  GetMoleculePrice k := Ok (echo ("GetMoleculePrice(" ++ show k ++ ")"));
  MolSimilarity := Ok (echo "MolSimilarity");
  PatentCheck := Ok (echo "PatentCheck");
  Query2CAS := Ok cas;
  Query2SMILES k := Ok (echo ("Query2SMILES(" ++ show k ++ ")"));
  RXNPredict k := Ok (echo ("RXNPredict(" ++ show k ++ ")"));
  RXNPredictLocal := Ok (echo "RXNPredictLocal");
  RXNRetrosynthesis k o :=
    Ok (echo ("RXNRetrosynthesis(" ++ show k ++ ", " ++ show o ++ ")"));
  RXNRetrosynthesisLocal := Ok (echo "RXNRetrosynthesisLocal");
  SafetySummary _ := Ok (echo "SafetySummary");
  Scholar2ResultLLM _ o s :=
    Ok (echo ("Scholar2ResultLLM(" ++ show o ++ ", " ++ show s ++ ")"));
  SMILES2Name := Ok (echo "SMILES2Name");
  SMILES2Weight := Ok weight;
  SimilarControlChemCheck := Ok (echo "SimilarControlChemCheck");
  WebSearch k := Ok (echo ("WebSearch(" ++ show k ++ ")"));
|}.

(** A weight tool that answers with a number, as a weight computation does. *)
Definition int_weight : Tool := {| _run _ := Ok (VInt 180) |}.

Definition stub_tools : Tools unit :=
  stub_tools_with (echo "Query2CAS") int_weight.

Definition stub_with (client : value -> result unit) (tools : result (Tools unit))
    : Extern := {|
  LLM := unit;
  ChatOpenAI _ key _ _ := client key;
  chemcrow_tools := tools;
  float_repr _ := "?";
|}.

(** The client is built whatever the key. *)
Definition stub : Extern := stub_with (fun _ => Ok tt) (Ok stub_tools).

(** The client refuses a missing key. *)
Definition stub_strict_llm : Extern :=
  stub_with (fun key => if truthy key then Ok tt
                        else Raise (ExternalError "Did not find openai_api_key"))
            (Ok stub_tools).

(** The library cannot be imported. *)
Definition stub_no_chemcrow : Extern := stub_with (fun _ => Ok tt) (Raise ImportError).

(** A library whose CAS lookup answers with a number. *)
Definition stub_int_cas : Extern :=
  stub_with (fun _ => Ok tt)
    (Ok (stub_tools_with {| _run _ := Ok (VInt 50782) |} int_weight)).

(** An environment holding only the OpenAI key. *)
Definition env_openai_only : gmap string string :=
  {[ "OPENAI_API_KEY" := "sk-test" ]}.

(** Every optional credential in the environment. *)
Definition env_all_keys : gmap string string :=
  list_to_map [
    ("OPENAI_API_KEY", "sk-env");
    ("SERP_API_KEY", "serp-env");
    ("CHEMSPACE_API_KEY", "chemspace-env");
    ("RXN4CHEM_API_KEY", "rxn-env");
    ("SEMANTIC_SCHOLAR_API_KEY", "s2-env")
  ].

Definition cfg_chemspace : gmap string value :=
  {[ "chemspace_api_key" := VStr "chemspace-cfg" ]}.

Definition cfg_rxn_only : gmap string value :=
  {[ "rxn4chem_api_key" := VStr "rxn-key" ]}.

Definition cfg_local_rxn : gmap string value :=
  {[ "local_rxn" := VBool true ]}.

(** ** The calls a construction makes *)

(** The exception of the first call that raises, if any does. *)
Fixpoint first_raise {A : Type} (calls : list (result A)) : option exn :=
  match calls with
  | [] => None
  | Ok _ :: rest => first_raise rest
  | Raise e :: _ => Some e
  end.

(** The twelve constructor calls [__init__] makes whatever the credentials,
    in source order. *)
Definition unconditional_calls {X : Extern} (cfg : gmap string value)
    (env : gmap string string) (l : LLM X) (T : Tools (LLM X)) : list (result Tool) :=
  [ Query2CAS T;
    Query2SMILES T (resolve cfg env Chemspace);
    SMILES2Name T;
    MolSimilarity T;
    SMILES2Weight T;
    FuncGroups T;
    PatentCheck T;
    ExplosiveCheck T;
    ControlChemCheck T;
    SimilarControlChemCheck T;
    SafetySummary T l;
    Scholar2ResultLLM T l (resolve cfg env OpenAI) (resolve cfg env SemanticScholar) ].

(** The constructor calls of the three [if] statements that follow. *)
Definition optional_calls {X : Extern} (cfg : gmap string value)
    (env : gmap string string) (T : Tools (LLM X)) : list (result Tool) :=
  (if truthy (resolve cfg env Chemspace)
   then [GetMoleculePrice T (resolve cfg env Chemspace)] else [])
  ++ (if truthy (resolve cfg env Serp)
      then [WebSearch T (resolve cfg env Serp)] else [])
  ++ (if local_rxn_enabled cfg
      then [RXNPredictLocal T; RXNRetrosynthesisLocal T]
      else if truthy (resolve cfg env Rxn4chem)
      then [RXNPredict T (resolve cfg env Rxn4chem);
            RXNRetrosynthesis T (resolve cfg env Rxn4chem) (resolve cfg env OpenAI)]
      else []).

(** Every constructor call of [__init__] for a configuration, in the order
    it makes them. *)
Definition construction_calls {X : Extern} (cfg : gmap string value)
    (env : gmap string string) (l : LLM X) (T : Tools (LLM X)) : list (result Tool) :=
  unconditional_calls cfg env l T ++ optional_calls cfg env T.

(** The constructor call [__init__] assigns to the handle of an ungated
    method. *)
Definition unconditional_constructor {X : Extern} (m : tool_name)
    (cfg : gmap string value) (env : gmap string string) (l : LLM X)
    (T : Tools (LLM X)) : option (result Tool) :=
  match m with
  | T_query_molecule_cas => Some (Query2CAS T)
  | T_convert_name_to_smiles => Some (Query2SMILES T (resolve cfg env Chemspace))
  | T_convert_smiles_to_name => Some (SMILES2Name T)
  | T_get_molecular_weight => Some (SMILES2Weight T)
  | T_get_functional_groups => Some (FuncGroups T)
  | T_check_molecule_similarity => Some (MolSimilarity T)
  | T_check_patent => Some (PatentCheck T)
  | T_check_explosive => Some (ExplosiveCheck T)
  | T_check_controlled_chemical => Some (ControlChemCheck T)
  | T_check_similar_controlled_chemicals => Some (SimilarControlChemCheck T)
  | T_get_safety_summary => Some (SafetySummary T l)
  | T_search_scholarly_literature =>
      Some (Scholar2ResultLLM T l (resolve cfg env OpenAI) (resolve cfg env SemanticScholar))
  | T_web_search_chemical
  | T_get_molecule_price
  | T_predict_reaction
  | T_retrosynthesis_planning => None
  end.

(** A library whose four credential-gated remote constructors always raise. *)
Definition broken_optional_tools : Tools unit := {|
  ControlChemCheck := Ok (echo "ControlChemCheck");
  ExplosiveCheck := Ok (echo "ExplosiveCheck");
  FuncGroups := Ok (echo "FuncGroups");
  GetMoleculePrice _ := Raise (ExternalError "chemspace unreachable");
  MolSimilarity := Ok (echo "MolSimilarity");
  PatentCheck := Ok (echo "PatentCheck");
  Query2CAS := Ok (echo "Query2CAS");
  Query2SMILES k := Ok (echo ("Query2SMILES(" ++ show k ++ ")"));
  RXNPredict _ := Raise (ExternalError "rxn4chem unreachable");
  RXNPredictLocal := Ok (echo "RXNPredictLocal");
  RXNRetrosynthesis _ _ := Raise (ExternalError "rxn4chem unreachable");
  RXNRetrosynthesisLocal := Ok (echo "RXNRetrosynthesisLocal");
  SafetySummary _ := Ok (echo "SafetySummary");
  Scholar2ResultLLM _ o s :=
    Ok (echo ("Scholar2ResultLLM(" ++ show o ++ ", " ++ show s ++ ")"));
  SMILES2Name := Ok (echo "SMILES2Name");
  SMILES2Weight := Ok int_weight;
  SimilarControlChemCheck := Ok (echo "SimilarControlChemCheck");
  WebSearch _ := Raise (ExternalError "serp unreachable");
|}.

Definition stub_broken_optional : Extern :=
  stub_with (fun _ => Ok tt) (Ok broken_optional_tools).

(** A tool that raises on every query. *)
Definition failing_tool (msg : string) : Tool :=
  {| _run _ := Raise (ExternalError msg) |}.

(** A library whose weight and CAS tools raise when run. *)
Definition stub_failing_runs : Extern :=
  stub_with (fun _ => Ok tt)
    (Ok (stub_tools_with (failing_tool "PubChem unreachable")
                         (failing_tool "Invalid SMILES string"))).


Definition cfg_local_and_rxn : gmap string value :=
  list_to_map [ ("local_rxn", VBool true); ("rxn4chem_api_key", VStr "rxn-key") ].

Definition cfg_empty_chemspace : gmap string value :=
  {[ "chemspace_api_key" := VStr EmptyString ]}.

(** ** The example scripts

    [examples/chemcrow_query2cas_demo.py] and
    [examples/chemcrow_agent_demo.py].  The model keeps the calls a script
    makes on the toolkit and on the agent, the lines it reads and how the
    run ends; what it prints is left out, and printing is taken to
    succeed. *)

(** Exceptions as the [except] clauses of the scripts tell them apart.
    [Exc e] is an [Exception] met by the toolkit; [FileNotFoundError] is an
    [Exception] too; [KeyboardInterrupt] and [SystemExit] are not. *)
Inductive pyexc : Type :=
  | Exc (e : exn)
  | FileNotFoundError
  | KeyboardInterrupt
  | SystemExit (code : Z).

(** [isinstance(e, Exception)] *)
Definition is_Exception (e : pyexc) : bool :=
  match e with
  | Exc _ | FileNotFoundError => true
  | KeyboardInterrupt | SystemExit _ => false
  end.

(** How a coroutine of a script ends: it returns, it is still waiting for a
    line that has not been typed, or an exception leaves it;
    [sys.exit(n)] is [Escaped (SystemExit n)]. *)
Inductive ending : Type :=
  | Completed
  | AwaitingInput
  | Escaped (e : pyexc).

(** One answer of [PrintUtils.async_print_input]: a line, or an exception
    raised while waiting for it. *)
Inductive input_event : Type :=
  | Line (s : string)
  | InputRaises (e : pyexc).

(** What the scripts use of the agent framework.  [toolkit_imports] is the
    pair of [import] statements that opens [demo_query2cas_basic];
    [load_agent] is every statement from the framework imports and
    [ConfigLoader.load_agent_config("simple/chemcrow")] to [get_agent] and
    the display of the agent's name and tools, up to the first that raises;
    [chat_streamed] is one call on the agent, which may change it. *)
Record Framework : Type := {
  toolkit_imports : result unit;
  Agent : Type;
  load_agent : Agent + pyexc;
  chat_streamed : Agent -> string -> Agent * option pyexc;
}.

(** *** [str.strip] and [str.lower]

    A string stands for the Python [str] with the same code points, all
    below 256. *)

(** [c.isspace()] *)
Definition isspace (c : Ascii.ascii) : bool :=
  let n := Ascii.nat_of_ascii c in
  (Nat.leb 9 n && Nat.leb n 13) || (Nat.leb 28 n && Nat.leb n 32)
  || Nat.eqb n 133 || Nat.eqb n 160.

Fixpoint lstrip (s : string) : string :=
  match s with
  | EmptyString => EmptyString
  | String c rest => if isspace c then lstrip rest else s
  end.

Fixpoint rstrip (s : string) : string :=
  match s with
  | EmptyString => EmptyString
  | String c rest =>
      match rstrip rest with
      | EmptyString => if isspace c then EmptyString else String c EmptyString
      | kept => String c kept
      end
  end.

(** [s.strip()] *)
Definition strip (s : string) : string := rstrip (lstrip s).

Definition lower_char (c : Ascii.ascii) : Ascii.ascii :=
  let n := Ascii.nat_of_ascii c in
  if (Nat.leb 65 n && Nat.leb n 90) || (Nat.leb 192 n && Nat.leb n 214)
     || (Nat.leb 216 n && Nat.leb n 222)
  then Ascii.ascii_of_nat (n + 32) else c.

(** [s.lower()] *)
Fixpoint lower (s : string) : string :=
  match s with
  | EmptyString => EmptyString
  | String c rest => String (lower_char c) (lower rest)
  end.

(** [user_input.strip().lower() in ["exit", "quit", "q"]] *)
Definition is_exit_command (user_input : string) : bool :=
  let word := lower (strip user_input) in
  String.eqb word "exit" || String.eqb word "quit" || String.eqb word "q".

(** [not user_input.strip()] *)
Definition is_blank (user_input : string) : bool :=
  match strip user_input with EmptyString => true | _ => false end.

(** What a session did: the queries handed to the agent, oldest first, the
    agent as the session left it, and the ending. *)
Record session (A : Type) : Type := {
  sent : list string;
  agent_after : A;
  outcome : ending;
}.
Arguments sent {A} _.
Arguments agent_after {A} _.
Arguments outcome {A} _.

(** Put a query in front of the queries of the rest of the session. *)
Definition after_query {A : Type} (q : string) (s : session A) : session A :=
  {| sent := q :: sent s; agent_after := agent_after s; outcome := outcome s |}.

Module Query2casDemo.

Definition test_smiles : string := "CC(=O)Oc1ccccc1C(=O)O".

(** The [config] mapping of the [ToolkitConfig] the demo builds. *)
Definition demo_config (env : gmap string string) : gmap string value :=
  list_to_map [
    ("temperature", VFloat 0.1);
    ("llm_model", VStr "gpt-3.5-turbo");
    ("openai_api_key", getenv env "OPENAI_API_KEY");
    ("openai_api_base", getenv env "OPENAI_API_BASE")
  ].

(** Examples 1 to 8 of the demo. *)
Definition demo_toolkit_calls {X : Extern} (toolkit : Toolkit X) : result unit :=
  _ ← query_molecule_cas toolkit "aspirin";
  _ ← convert_name_to_smiles toolkit "aspirin";
  _ ← convert_smiles_to_name toolkit test_smiles;
  _ ← get_molecular_weight toolkit test_smiles;
  _ ← get_functional_groups toolkit test_smiles;
  _ ← check_patent toolkit test_smiles;
  _ ← check_explosive toolkit test_smiles;
  _ ← check_controlled_chemical toolkit test_smiles;
  Ok tt.

(** The [try] block of [demo_query2cas_basic]. *)
Definition demo_try (X : Extern) (F : Framework) (env : gmap string string)
    : result unit :=
  _ ← toolkit_imports F;
  toolkit ← __init__ X (demo_config env) env;
  demo_toolkit_calls toolkit.

(** [demo_query2cas_basic]: an [ImportError] is raised again, any other
    exception ends in [sys.exit(1)]. *)
Definition demo_query2cas_basic (X : Extern) (F : Framework)
    (env : gmap string string) : ending :=
  match demo_try X F env with
  | Ok _ => Completed
  | Raise ImportError => Escaped (Exc ImportError)
  | Raise _ => Escaped (SystemExit 1)
  end.

Definition sample_query : string :=
  "What is the CAS number for acetylsalicylic acid (aspirin)?".

(** The [while True] loop of [demo_agent_with_query2cas]. *)
Fixpoint agent_loop (F : Framework) (agent : Agent F) (inputs : list input_event)
    : session (Agent F) :=
  match inputs with
  | [] => {| sent := []; agent_after := agent; outcome := AwaitingInput |}
  | InputRaises e :: _ => {| sent := []; agent_after := agent; outcome := Escaped e |}
  | Line user_input :: rest =>
      if is_exit_command user_input
      then {| sent := []; agent_after := agent; outcome := Completed |}
      else if negb (is_blank user_input)
      then match chat_streamed F agent user_input with
           | (agent', None) => after_query user_input (agent_loop F agent' rest)
           | (agent', Some e) =>
               {| sent := [user_input]; agent_after := agent'; outcome := Escaped e |}
           end
      else agent_loop F agent rest
  end.

(** The [try] block of [demo_agent_with_query2cas], from a loaded agent. *)
Definition agent_try (F : Framework) (agent : Agent F) (inputs : list input_event)
    : session (Agent F) :=
  match chat_streamed F agent sample_query with
  | (agent', None) => after_query sample_query (agent_loop F agent' inputs)
  | (agent', Some e) =>
      {| sent := [sample_query]; agent_after := agent'; outcome := Escaped e |}
  end.

(** The [except] clauses of [demo_agent_with_query2cas]. *)
Definition agent_except (X : Extern) (F : Framework) (env : gmap string string)
    (tried : ending) : ending :=
  match tried with
  | Escaped FileNotFoundError => demo_query2cas_basic X F env
  | Escaped e => if is_Exception e then Escaped (SystemExit 1) else Escaped e
  | other => other
  end.

(** [demo_agent_with_query2cas]: the queries sent to the agent and the
    ending. *)
Definition demo_agent_with_query2cas (X : Extern) (F : Framework)
    (env : gmap string string) (inputs : list input_event)
    : list string * ending :=
  match load_agent F with
  | inr e => ([], agent_except X F env (Escaped e))
  | inl agent =>
      let s := agent_try F agent inputs in
      (sent s, agent_except X F env (outcome s))
  end.

(** [main], on [sys.argv]. *)
Definition main (X : Extern) (F : Framework) (env : gmap string string)
    (inputs : list input_event) (argv : list string) : list string * ending :=
  match argv with
  | _ :: arg :: _ =>
      if String.eqb arg "--help" || String.eqb arg "-h"
      then ([], Completed)
      else if String.eqb arg "--agent"
      then demo_agent_with_query2cas X F env inputs
      else ([], demo_query2cas_basic X F env)
  | _ => ([], demo_query2cas_basic X F env)
  end.

End Query2casDemo.

Module AgentDemo.

(** The [while True] loop of [run_interactive_demo], with [turn_id]. *)
Fixpoint interactive_loop (F : Framework) (agent : Agent F) (turn_id : nat)
    (inputs : list input_event) : session (Agent F) * nat :=
  match inputs with
  | [] => ({| sent := []; agent_after := agent; outcome := AwaitingInput |}, turn_id)
  | InputRaises e :: rest =>
      match e with
      | KeyboardInterrupt =>
          ({| sent := []; agent_after := agent; outcome := Completed |}, turn_id)
      | _ =>
          if is_Exception e
          then interactive_loop F agent turn_id rest
          else ({| sent := []; agent_after := agent; outcome := Escaped e |}, turn_id)
      end
  | Line user_input :: rest =>
      if is_exit_command user_input
      then ({| sent := []; agent_after := agent; outcome := Completed |}, turn_id)
      else if is_blank user_input
      then interactive_loop F agent turn_id rest
      else match chat_streamed F agent user_input with
           | (agent', None) =>
               let (s, n) := interactive_loop F agent' (S turn_id) rest in
               (after_query user_input s, n)
           | (agent', Some KeyboardInterrupt) =>
               ({| sent := [user_input]; agent_after := agent'; outcome := Completed |},
                turn_id)
           | (agent', Some e) =>
               if is_Exception e
               then let (s, n) := interactive_loop F agent' turn_id rest in
                    (after_query user_input s, n)
               else ({| sent := [user_input]; agent_after := agent';
                        outcome := Escaped e |}, turn_id)
           end
  end.

(** The outer [except] clauses of [run_interactive_demo] and the one of
    [run_demo_examples]: an [Exception] ends in [sys.exit(1)]. *)
Definition outer_except (tried : ending) : ending :=
  match tried with
  | Escaped e => if is_Exception e then Escaped (SystemExit 1) else Escaped e
  | other => other
  end.

(** [run_interactive_demo]: the queries sent to the agent and the ending. *)
Definition run_interactive_demo (F : Framework) (inputs : list input_event)
    : list string * ending :=
  match load_agent F with
  | inr e => ([], outer_except (Escaped e))
  | inl agent =>
      let s := fst (interactive_loop F agent 0 inputs) in
      (sent s, outer_except (outcome s))
  end.

Definition example_queries : list string :=
  [ "What is the CAS number for aspirin?";
    "Convert glucose to SMILES notation";
    "What's the molecular weight of caffeine?" ].

(** The [for] loop of [run_demo_examples]. *)
Fixpoint examples_loop (F : Framework) (agent : Agent F) (queries : list string)
    : session (Agent F) :=
  match queries with
  | [] => {| sent := []; agent_after := agent; outcome := Completed |}
  | query :: rest =>
      match chat_streamed F agent query with
      | (agent', None) => after_query query (examples_loop F agent' rest)
      | (agent', Some e) =>
          if is_Exception e
          then after_query query (examples_loop F agent' rest)
          else {| sent := [query]; agent_after := agent'; outcome := Escaped e |}
      end
  end.

(** [run_demo_examples] *)
Definition run_demo_examples (F : Framework) : list string * ending :=
  match load_agent F with
  | inr e => ([], outer_except (Escaped e))
  | inl agent =>
      let s := examples_loop F agent example_queries in
      (sent s, outer_except (outcome s))
  end.

(** [main], on [sys.argv]. *)
Definition main (F : Framework) (inputs : list input_event) (argv : list string)
    : list string * ending :=
  match argv with
  | _ :: arg :: _ =>
      if String.eqb arg "--examples"
      then run_demo_examples F
      else run_interactive_demo F inputs
  | _ => run_interactive_demo F inputs
  end.

End AgentDemo.

(** *** Stand-in agents *)

(** An agent that counts its calls and raises on the query "fail". *)
Definition counting_framework (load : nat + pyexc) : Framework := {|
  toolkit_imports := Ok tt;
  Agent := nat;
  load_agent := load;
  chat_streamed n q :=
    (S n, if String.eqb q "fail" then Some (Exc (ExternalError "agent failed")) else None);
|}.

(** The lines typed before the first exit command. *)
Fixpoint before_exit (lines : list string) : list string :=
  match lines with
  | [] => []
  | s :: rest => if is_exit_command s then [] else s :: before_exit rest
  end.

(** The agent raises nothing but instances of [Exception]. *)
Definition raises_only_Exceptions (F : Framework) : Prop :=
  forall agent q e, (chat_streamed F agent q).2 = Some e -> is_Exception e = true.

(** The agent answers every query. *)
Definition never_raises (F : Framework) : Prop :=
  forall agent q, (chat_streamed F agent q).2 = None.

(** An agent that answers every query. *)
Definition answering_framework : Framework := {|
  toolkit_imports := Ok tt;
  Agent := nat;
  load_agent := inl 0;
  chat_streamed n q := (S n, None);
|}.

(** Every character of [w] is white space. *)
Fixpoint all_space (w : string) : bool :=
  match w with
  | EmptyString => true
  | String c rest => isspace c && all_space rest
  end.

(** ** What the capabilities require *)




(** The eight calls of [demo_query2cas_basic], examples 1 to 8: the method
    and the query it is given. *)
Definition demo_queries : list (tool_name * string) :=
  [ (T_query_molecule_cas, "aspirin");
    (T_convert_name_to_smiles, "aspirin");
    (T_convert_smiles_to_name, Query2casDemo.test_smiles);
    (T_get_molecular_weight, Query2casDemo.test_smiles);
    (T_get_functional_groups, Query2casDemo.test_smiles);
    (T_check_patent, Query2casDemo.test_smiles);
    (T_check_explosive, Query2casDemo.test_smiles);
    (T_check_controlled_chemical, Query2casDemo.test_smiles) ].

(** A library whose tools outside the basic demo raise when run. *)
Definition stub_demo_only : Extern :=
  stub_with (fun _ => Ok tt)
    (Ok {|
      ControlChemCheck := Ok (echo "ControlChemCheck");
      ExplosiveCheck := Ok (echo "ExplosiveCheck");
      FuncGroups := Ok (echo "FuncGroups");
      GetMoleculePrice k := Ok (failing_tool "not in the demo");
      MolSimilarity := Ok (failing_tool "not in the demo");
      PatentCheck := Ok (echo "PatentCheck");
      Query2CAS := Ok (echo "Query2CAS");
      Query2SMILES k := Ok (echo "Query2SMILES");
      RXNPredict k := Ok (failing_tool "not in the demo");
      RXNPredictLocal := Ok (failing_tool "not in the demo");
      RXNRetrosynthesis k o := Ok (failing_tool "not in the demo");
      RXNRetrosynthesisLocal := Ok (failing_tool "not in the demo");
      SafetySummary _ := Ok (failing_tool "not in the demo");
      Scholar2ResultLLM _ o s := Ok (failing_tool "not in the demo");
      SMILES2Name := Ok (echo "SMILES2Name");
      SMILES2Weight := Ok int_weight;
      SimilarControlChemCheck := Ok (failing_tool "not in the demo");
      WebSearch k := Ok (failing_tool "not in the demo");
    |}).

(** ** Runs on the stand-ins *)

Example init_stub_price_absent :
  (tk ← __init__ stub ∅ env_openai_only; get_molecule_price tk "CCO")
  = Ok (VStr "Molecule price lookup not available. Set CHEMSPACE_API_KEY environment variable.").
Proof. reflexivity. Qed.

Example init_stub_explosive :
  (tk ← __init__ stub ∅ env_openai_only; check_explosive tk "CC(=O)Oc1ccccc1C(=O)O")
  = Ok (VStr "ExplosiveCheck: CC(=O)Oc1ccccc1C(=O)O").
Proof. reflexivity. Qed.

Example init_stub_weight :
  (tk ← __init__ stub ∅ env_openai_only; get_molecular_weight tk "CCO")
  = Ok (VStr "180").
Proof. reflexivity. Qed.

Example init_stub_similarity :
  (tk ← __init__ stub ∅ env_openai_only; check_molecule_similarity tk "CCO" "CCN")
  = Ok (VStr "MolSimilarity: CCO CCN").
Proof. reflexivity. Qed.

Example init_stub_all_keys_price :
  (tk ← __init__ stub cfg_chemspace env_all_keys; get_molecule_price tk "CCO")
  = Ok (VStr "GetMoleculePrice(chemspace-cfg): CCO").
Proof. reflexivity. Qed.

Example init_strict_without_key :
  __init__ stub_strict_llm ∅ ∅ = Raise (ExternalError "Did not find openai_api_key").
Proof. reflexivity. Qed.

(** ** Credential resolution *)

Lemma py_or_falsy a b : truthy a = false -> py_or a b = b.
Proof. unfold py_or. intros ->. reflexivity. Qed.

Lemma py_or_truthy a b : truthy a = true -> py_or a b = a.
Proof. unfold py_or. intros ->. reflexivity. Qed.

Lemma resolve_missing cfg env c :
  credential_missing cfg env c = true -> truthy (resolve cfg env c) = false.
Proof.
  unfold credential_missing, resolve. intros H.
  apply andb_true_iff in H as [Hc He].
  apply negb_true_iff in Hc, He.
  rewrite py_or_falsy by exact Hc. exact He.
Qed.

Lemma resolve_config_wins cfg env c v :
  cfg !! config_option c = Some v -> truthy v = true -> resolve cfg env c = v.
Proof.
  intros Hv Ht. unfold resolve, dict_get. rewrite Hv. simpl.
  apply py_or_truthy, Ht.
Qed.

Lemma truthy_nonempty s : s <> EmptyString -> truthy (VStr s) = true.
Proof. intros Hs. destruct s; [congruence | reflexivity]. Qed.

(** An empty string in the configuration is not a value for [or]: the
    environment variable is read. *)
Lemma resolve_empty_config_falls_back cfg env c :
  cfg !! config_option c = Some (VStr EmptyString) ->
  resolve cfg env c = getenv env (env_var c).
Proof.
  intros Hv. unfold resolve, dict_get. rewrite Hv. reflexivity.
Qed.

(** [self.api_keys.get(VAR)] is the resolved credential. *)
Lemma api_keys_get cfg env c :
  dict_get (make_api_keys cfg env (resolve cfg env OpenAI)) (env_var c) VNone
  = resolve cfg env c.
Proof. destruct c; reflexivity. Qed.

Lemma api_keys_lookup cfg env c :
  make_api_keys cfg env (resolve cfg env OpenAI) !! env_var c
  = Some (resolve cfg env c).
Proof. destruct c; reflexivity. Qed.

(** ** Construction *)

Lemma built_is_Some c h : built c h -> is_Some h.
Proof. intros (t & _ & ->). eauto. Qed.

Lemma returns_Ok {A} (r : result A) : returns r = true -> exists a, r = Ok a.
Proof. destruct r; [eauto | discriminate]. Qed.

(** A bind whose first call returns continues. *)
Lemma bind_returns {A B} (c : result A) (k : A -> result B) :
  returns c = true ->
  (forall a, returns (k a) = true) ->
  returns (c ≫= k) = true.
Proof. intros Hc Hk. destruct c; [apply Hk | discriminate]. Qed.

(** Read one [x ← c; k] step of a construction that returned. *)
Ltac step H :=
  match type of H with
  | mbind _ ?c = Ok _ =>
      let E := fresh "E" in
      destruct c eqn:E; [ change (mbind ?f (Ok ?a)) with (f a) in H; cbv beta in H
                        | discriminate H ]
  end.

Section Construction.
Context (X : Extern).

Lemma init_ok_inv cfg env tk :
  __init__ X cfg env = Ok tk ->
  exists l T, build_llm X cfg env = Ok l /\ chemcrow_tools X = Ok T /\ wired cfg env l T tk.
Proof.
  intros H. unfold __init__ in H.
  change (py_or (dict_get cfg "openai_api_key" VNone) (getenv env "OPENAI_API_KEY"))
    with (resolve cfg env OpenAI) in H.
  cbv zeta in H.
  rewrite !(api_keys_get cfg env Chemspace : dict_get _ "CHEMSPACE_API_KEY" _ = _) in H.
  rewrite !(api_keys_get cfg env OpenAI : dict_get _ "OPENAI_API_KEY" _ = _) in H.
  rewrite !(api_keys_get cfg env SemanticScholar
            : dict_get _ "SEMANTIC_SCHOLAR_API_KEY" _ = _) in H.
  rewrite !(api_keys_get cfg env Serp : dict_get _ "SERP_API_KEY" _ = _) in H.
  rewrite !(api_keys_get cfg env Rxn4chem : dict_get _ "RXN4CHEM_API_KEY" _ = _) in H.
  fold (build_llm X cfg env) in H. fold (local_rxn_enabled cfg) in H.
  step H. rename a into l. step H. rename a into T.
  do 15 step H.
  injection H as <-.
  exists l, T. split; [reflexivity | split; [reflexivity |]].
  constructor; cbn [config llm api_keys query2cas_tool query2smiles_tool
    smiles2name_tool mol_similarity_tool smiles2weight_tool func_groups_tool
    patent_check_tool explosive_check_tool control_chem_check_tool
    similar_control_chem_check_tool safety_summary_tool scholar_tool
    molecule_price_tool web_search_tool rxn_predict_tool rxn_retro_tool];
    try reflexivity; try (eexists; split; [eassumption | reflexivity]).
  - destruct (truthy (resolve cfg env Chemspace)).
    + step E13. injection E13 as <-. eexists; eauto.
    + injection E13 as <-. reflexivity.
  - destruct (truthy (resolve cfg env Serp)).
    + step E14. injection E14 as <-. eexists; eauto.
    + injection E14 as <-. reflexivity.
  - destruct (local_rxn_enabled cfg).
    + do 2 step E15. injection E15 as <-. split; eexists; eauto.
    + destruct (truthy (resolve cfg env Rxn4chem)).
      * do 2 step E15. injection E15 as <-. split; eexists; eauto.
      * injection E15 as <-. split; reflexivity.
Qed.

Lemma init_llm_raises cfg env e :
  build_llm X cfg env = Raise e -> __init__ X cfg env = Raise e.
Proof.
  intros H. unfold __init__.
  change (py_or (dict_get cfg "openai_api_key" VNone) (getenv env "OPENAI_API_KEY"))
    with (resolve cfg env OpenAI).
  cbv zeta. fold (build_llm X cfg env). rewrite H. reflexivity.
Qed.

Lemma init_import_raises cfg env l e :
  build_llm X cfg env = Ok l -> chemcrow_tools X = Raise e ->
  __init__ X cfg env = Raise e.
Proof.
  intros H Hi. unfold __init__.
  change (py_or (dict_get cfg "openai_api_key" VNone) (getenv env "OPENAI_API_KEY"))
    with (resolve cfg env OpenAI).
  cbv zeta. fold (build_llm X cfg env). rewrite H.
  change (mbind ?f (Ok ?a)) with (f a). cbv beta. rewrite Hi. reflexivity.
Qed.

Lemma init_returns cfg env l T :
  build_llm X cfg env = Ok l -> chemcrow_tools X = Ok T -> constructors_return T ->
  returns (__init__ X cfg env) = true.
Proof.
  intros H Hi [].
  unfold __init__.
  change (py_or (dict_get cfg "openai_api_key" VNone) (getenv env "OPENAI_API_KEY"))
    with (resolve cfg env OpenAI).
  cbv zeta. fold (build_llm X cfg env). rewrite H.
  change (mbind ?f (Ok ?a)) with (f a). cbv beta. rewrite Hi.
  change (mbind ?f (Ok ?a)) with (f a). cbv beta.
  repeat match goal with
    | |- returns (_ ≫= _) = true => apply bind_returns; [| intros ?]
    | |- returns (if ?b then _ else _) = true => destruct b
    | |- returns (Ok _) = true => reflexivity
    | |- _ => solve [auto]
    end.
Qed.

End Construction.

Lemma stub_tools_with_return cas weight : constructors_return (stub_tools_with cas weight).
Proof. constructor; reflexivity. Qed.

(** ** Delegation *)

Lemma web_search_absent {X} (tk : Toolkit X) q :
  web_search_tool tk = None ->
  web_search_chemical tk q
  = Ok (VStr "Web search tool not available. Set SERP_API_KEY environment variable.").
Proof. unfold web_search_chemical. intros ->. reflexivity. Qed.

Lemma molecule_price_absent {X} (tk : Toolkit X) q :
  molecule_price_tool tk = None ->
  get_molecule_price tk q
  = Ok (VStr "Molecule price lookup not available. Set CHEMSPACE_API_KEY environment variable.").
Proof. unfold get_molecule_price. intros ->. reflexivity. Qed.

Lemma predict_reaction_absent {X} (tk : Toolkit X) q :
  rxn_predict_tool tk = None ->
  predict_reaction tk q
  = Ok (VStr "Reaction prediction tool not available. Set RXN4CHEM_API_KEY environment variable or enable local_rxn.").
Proof. unfold predict_reaction. intros ->. reflexivity. Qed.

Lemma retrosynthesis_absent {X} (tk : Toolkit X) q :
  rxn_retro_tool tk = None ->
  retrosynthesis_planning tk q
  = Ok (VStr "Retrosynthesis tool not available. Set RXN4CHEM_API_KEY environment variable or enable local_rxn.").
Proof. unfold retrosynthesis_planning. intros ->. reflexivity. Qed.

Lemma predict_reaction_bound {X} (tk : Toolkit X) t q :
  rxn_predict_tool tk = Some t -> predict_reaction tk q = _run t q.
Proof. unfold predict_reaction. intros ->. reflexivity. Qed.

Lemma retrosynthesis_bound {X} (tk : Toolkit X) t q :
  rxn_retro_tool tk = Some t -> retrosynthesis_planning tk q = _run t q.
Proof. unfold retrosynthesis_planning. intros ->. reflexivity. Qed.

(** A gated method on an absent handle answers with its fixed string. *)
Lemma invoke_absent {X} (tk : Toolkit X) m a b msg :
  unavailable_message m = Some msg -> handle m tk = None ->
  invoke m tk a b = Ok (VStr msg).
Proof.
  destruct m; cbn [unavailable_message]; try discriminate;
    intros [= <-]; cbn [handle invoke]; intros Hh.
  - apply web_search_absent, Hh.
  - apply molecule_price_absent, Hh.
  - apply predict_reaction_absent, Hh.
  - apply retrosynthesis_absent, Hh.
Qed.

(** Every method but [get_molecular_weight] hands back what [_run] gave. *)
Lemma invoke_bound {X} (tk : Toolkit X) m a b t :
  m <> T_get_molecular_weight -> handle m tk = Some t ->
  invoke m tk a b = _run t (run_argument m a b).
Proof.
  intros Hm. destruct m; try congruence; cbn [handle invoke run_argument]; intros Hh;
    unfold query_molecule_cas, convert_name_to_smiles, convert_smiles_to_name,
      get_functional_groups, check_molecule_similarity,
      check_patent, check_explosive, check_controlled_chemical,
      check_similar_controlled_chemicals, get_safety_summary,
      search_scholarly_literature, web_search_chemical, get_molecule_price,
      predict_reaction, retrosynthesis_planning;
    rewrite Hh; reflexivity.
Qed.

Lemma weight_bound {X} (tk : Toolkit X) t q r :
  smiles2weight_tool tk = Some t -> _run t q = Ok r ->
  get_molecular_weight tk q = Ok (VStr (py_str X r)).
Proof.
  intros Hh Hr. unfold get_molecular_weight. rewrite Hh. cbn [call_run]. rewrite Hr.
  destruct r; reflexivity.
Qed.

Lemma weight_result_is_str {X} (tk : Toolkit X) q v :
  get_molecular_weight tk q = Ok v -> is_str v = true.
Proof.
  unfold get_molecular_weight. destruct (call_run _ _) as [r|e]; [| discriminate].
  intros [= <-]. destruct r; reflexivity.
Qed.

(** ** The claims *)

(** C1. Constructed without the chemspace credential, [get_molecule_price]
    returns its fixed string; without the serp credential,
    [web_search_chemical] returns its fixed string; without the
    reaction-service credential and with [local_rxn] off, [predict_reaction]
    and [retrosynthesis_planning] return their fixed strings.  In each case
    the call returns: it does not raise. *)
Theorem gated_methods_unavailable (X : Extern) cfg env (tk : Toolkit X) q :
  __init__ X cfg env = Ok tk ->
  (credential_missing cfg env Chemspace = true ->
     get_molecule_price tk q
     = Ok (VStr "Molecule price lookup not available. Set CHEMSPACE_API_KEY environment variable."))
  /\ (credential_missing cfg env Serp = true ->
     web_search_chemical tk q
     = Ok (VStr "Web search tool not available. Set SERP_API_KEY environment variable."))
  /\ (credential_missing cfg env Rxn4chem = true -> local_rxn_enabled cfg = false ->
     predict_reaction tk q
     = Ok (VStr "Reaction prediction tool not available. Set RXN4CHEM_API_KEY environment variable or enable local_rxn."))
  /\ (credential_missing cfg env Rxn4chem = true -> local_rxn_enabled cfg = false ->
     retrosynthesis_planning tk q
     = Ok (VStr "Retrosynthesis tool not available. Set RXN4CHEM_API_KEY environment variable or enable local_rxn.")).
Proof.
  intros Hinit.
  destruct (init_ok_inv X cfg env tk Hinit) as (l & T & _ & _ & W).
  pose proof (w_molecule_price _ _ _ _ _ W) as Hp.
  pose proof (w_web_search _ _ _ _ _ W) as Hw.
  pose proof (w_rxn _ _ _ _ _ W) as Hr.
  repeat split.
  - intros Hm. rewrite (resolve_missing _ _ _ Hm) in Hp.
    apply molecule_price_absent, Hp.
  - intros Hm. rewrite (resolve_missing _ _ _ Hm) in Hw.
    apply web_search_absent, Hw.
  - intros Hm Hl. rewrite Hl, (resolve_missing _ _ _ Hm) in Hr.
    apply predict_reaction_absent, Hr.
  - intros Hm Hl. rewrite Hl, (resolve_missing _ _ _ Hm) in Hr.
    apply retrosynthesis_absent, Hr.
Qed.

Lemma gated_methods_unavailable_witness :
  exists tk : Toolkit stub,
    __init__ stub ∅ env_openai_only = Ok tk
    /\ get_molecule_price tk "CCO"
       = Ok (VStr "Molecule price lookup not available. Set CHEMSPACE_API_KEY environment variable.")
    /\ web_search_chemical tk "CCO"
       = Ok (VStr "Web search tool not available. Set SERP_API_KEY environment variable.")
    /\ predict_reaction tk "CCO"
       = Ok (VStr "Reaction prediction tool not available. Set RXN4CHEM_API_KEY environment variable or enable local_rxn.")
    /\ retrosynthesis_planning tk "CCO"
       = Ok (VStr "Retrosynthesis tool not available. Set RXN4CHEM_API_KEY environment variable or enable local_rxn.").
Proof.
  destruct (__init__ stub ∅ env_openai_only) as [tk | e] eqn:Hinit;
    [| vm_compute in Hinit; discriminate Hinit].
  exists tk. split; [reflexivity |].
  destruct (gated_methods_unavailable stub ∅ env_openai_only tk "CCO" Hinit)
    as (Hp & Hw & Hr & Ht).
  repeat split.
  - apply Hp. reflexivity.
  - apply Hw. reflexivity.
  - apply Hr; reflexivity.
  - apply Ht; reflexivity.
Defined.







(** C3, as stated, fails: with the LLM client built, construction still
    raises when [chemcrow.tools] cannot be imported. *)
Lemma construction_fails_on_import :
  build_llm stub_no_chemcrow ∅ env_openai_only = Ok tt
  /\ __init__ stub_no_chemcrow ∅ env_openai_only = Raise ImportError.
Proof. split; reflexivity. Qed.

(** C3, amended.  Construction raises when the LLM client cannot be built,
    with the client's exception, and this is not the only hard failure: with
    the client built it raises when [chemcrow.tools] cannot be imported.
    The adapter raises nothing of its own: when the client is built,
    [chemcrow.tools] is imported and every tool constructor returns,
    construction returns a toolkit. *)
Theorem construction_failures (X : Extern) cfg env :
  (forall e, build_llm X cfg env = Raise e -> __init__ X cfg env = Raise e)
  /\ (forall l e,
        build_llm X cfg env = Ok l -> chemcrow_tools X = Raise e ->
        __init__ X cfg env = Raise e)
  /\ (forall l T,
        build_llm X cfg env = Ok l -> chemcrow_tools X = Ok T -> constructors_return T ->
        exists tk, __init__ X cfg env = Ok tk).
Proof.
  split; [| split].
  - intros e. apply init_llm_raises.
  - intros l e. apply init_import_raises.
  - intros l T Hl HT HC. apply returns_Ok. eapply init_returns; eassumption.
Qed.

Lemma construction_failures_witness :
  __init__ stub_strict_llm ∅ ∅ = Raise (ExternalError "Did not find openai_api_key")
  /\ __init__ stub_no_chemcrow ∅ ∅ = Raise ImportError
  /\ exists tk, __init__ stub ∅ ∅ = Ok tk.
Proof.
  split; [| split].
  - apply (proj1 (construction_failures stub_strict_llm ∅ ∅)). reflexivity.
  - apply (proj1 (proj2 (construction_failures stub_no_chemcrow ∅ ∅)) tt);
      reflexivity.
  - apply (proj2 (proj2 (construction_failures stub ∅ ∅)) tt stub_tools);
      [reflexivity | reflexivity | apply stub_tools_with_return].
Defined.

(** C4, as stated, fails: with the chemspace credential set to the empty
    string in the configuration and to another value in the environment,
    the credential the adapter resolves, stores and decides availability
    with is the environment's: the price-lookup handle is built with it. *)
Lemma empty_config_credential_defers_to_environment :
  cfg_empty_chemspace !! config_option Chemspace = Some (VStr EmptyString)
  /\ env_all_keys !! env_var Chemspace = Some "chemspace-env"
  /\ exists tk : Toolkit stub,
       __init__ stub cfg_empty_chemspace env_all_keys = Ok tk
       /\ api_keys tk !! "CHEMSPACE_API_KEY" = Some (VStr "chemspace-env")
       /\ get_molecule_price tk "CCO" = Ok (VStr "GetMoleculePrice(chemspace-env): CCO").
Proof. split; [reflexivity | split; [reflexivity |]]. eexists. repeat split. Qed.

(** C4, amended.  For each of the five credentials: when the configuration
    gives a non-empty value and the environment variable holds a different
    one, the credential the adapter resolves, stores in [api_keys] and
    decides availability with is the configuration value, and the handles
    are built with it.  The environment variable is the fallback, used
    exactly when the configuration gives no entry, [None] or the empty
    string: the credential is then the environment's value, or [None] when
    the variable is not set either. *)
Theorem credential_resolution_order (X : Extern) cfg env (tk : Toolkit X)
    (c : credential) :
  __init__ X cfg env = Ok tk ->
  (forall cv ev,
     cfg !! config_option c = Some (VStr cv) -> cv <> EmptyString ->
     env !! env_var c = Some ev -> cv <> ev ->
     resolve cfg env c = VStr cv
     /\ api_keys tk !! env_var c = Some (VStr cv)
     /\ dict_get (api_keys tk) (env_var c) VNone = VStr cv
     /\ exists T, chemcrow_tools X = Ok T
        /\ match c with
           | Chemspace => built (GetMoleculePrice T (VStr cv)) (molecule_price_tool tk)
           | Serp => built (WebSearch T (VStr cv)) (web_search_tool tk)
           | Rxn4chem =>
               local_rxn_enabled cfg = false ->
               built (RXNPredict T (VStr cv)) (rxn_predict_tool tk)
           | OpenAI =>
               exists l, ChatOpenAI X (dict_get cfg "llm_model" (VStr "gpt-3.5-turbo"))
                           (VStr cv) (dict_get cfg "openai_api_base" VNone)
                           (dict_get cfg "temperature" (VFloat 0.1)) = Ok l
           | SemanticScholar =>
               built (Scholar2ResultLLM T (llm tk) (resolve cfg env OpenAI) (VStr cv))
                     (scholar_tool tk)
           end)
  /\ (forall ev,
        truthy (dict_get cfg (config_option c) VNone) = false ->
        env !! env_var c = Some ev ->
        resolve cfg env c = VStr ev
        /\ api_keys tk !! env_var c = Some (VStr ev)
        /\ dict_get (api_keys tk) (env_var c) VNone = VStr ev)
  /\ (truthy (dict_get cfg (config_option c) VNone) = false ->
      env !! env_var c = None ->
      resolve cfg env c = VNone
      /\ api_keys tk !! env_var c = Some VNone).
Proof.
  intros Hinit.
  destruct (init_ok_inv X cfg env tk Hinit) as (l & T & Hl & HT & W).
  rewrite (w_api_keys _ _ _ _ _ W), api_keys_lookup, api_keys_get.
  split; [| split].
  - intros cv ev Hc Hne _ _.
    pose proof (truthy_nonempty _ Hne) as Ht.
    pose proof (resolve_config_wins cfg env c _ Hc Ht) as Hr.
    rewrite Hr.
    split; [reflexivity | split; [reflexivity | split; [reflexivity |]]].
    exists T. split; [exact HT |].
    destruct c.
    + exists l. unfold build_llm in Hl. rewrite Hr in Hl. exact Hl.
    + pose proof (w_web_search _ _ _ _ _ W) as H. rewrite Hr, Ht in H. exact H.
    + pose proof (w_molecule_price _ _ _ _ _ W) as H. rewrite Hr, Ht in H. exact H.
    + intros Hloc. pose proof (w_rxn _ _ _ _ _ W) as H.
      rewrite Hloc, Hr, Ht in H. exact (proj1 H).
    + pose proof (w_scholar _ _ _ _ _ W) as H.
      rewrite Hr, <- (w_llm _ _ _ _ _ W) in H. exact H.
  - intros ev Hc He.
    assert (Hr : resolve cfg env c = VStr ev).
    { unfold resolve. rewrite py_or_falsy by exact Hc. unfold getenv. rewrite He.
      reflexivity. }
    rewrite Hr. auto.
  - intros Hc He.
    assert (Hr : resolve cfg env c = VNone).
    { unfold resolve. rewrite py_or_falsy by exact Hc. unfold getenv. rewrite He.
      reflexivity. }
    rewrite Hr. auto.
Qed.

Lemma credential_resolution_order_witness :
  (exists tk : Toolkit stub,
     __init__ stub cfg_chemspace env_all_keys = Ok tk
     /\ api_keys tk !! "CHEMSPACE_API_KEY" = Some (VStr "chemspace-cfg")
     /\ exists T, chemcrow_tools stub = Ok T
        /\ built (GetMoleculePrice T (VStr "chemspace-cfg")) (molecule_price_tool tk))
  /\ (exists tk : Toolkit stub,
        __init__ stub cfg_empty_chemspace env_all_keys = Ok tk
        /\ api_keys tk !! "CHEMSPACE_API_KEY" = Some (VStr "chemspace-env"))
  /\ (exists tk : Toolkit stub,
        __init__ stub cfg_empty_chemspace env_openai_only = Ok tk
        /\ api_keys tk !! "CHEMSPACE_API_KEY" = Some VNone).
Proof.
  split; [| split].
  - destruct (__init__ stub cfg_chemspace env_all_keys) as [tk | e] eqn:Hinit;
      [| vm_compute in Hinit; discriminate Hinit].
    exists tk. split; [reflexivity |].
    destruct (proj1 (credential_resolution_order stub cfg_chemspace env_all_keys tk
                       Chemspace Hinit) "chemspace-cfg" "chemspace-env")
      as (_ & Hk & _ & Hb); [reflexivity | discriminate | reflexivity | discriminate |].
    split; [exact Hk | exact Hb].
  - destruct (__init__ stub cfg_empty_chemspace env_all_keys) as [tk | e] eqn:Hinit;
      [| vm_compute in Hinit; discriminate Hinit].
    exists tk. split; [reflexivity |].
    destruct (proj1 (proj2 (credential_resolution_order stub cfg_empty_chemspace
                              env_all_keys tk Chemspace Hinit)) "chemspace-env")
      as (_ & Hk & _); [reflexivity | reflexivity | exact Hk].
  - destruct (__init__ stub cfg_empty_chemspace env_openai_only) as [tk | e] eqn:Hinit;
      [| vm_compute in Hinit; discriminate Hinit].
    exists tk. split; [reflexivity |].
    destruct (proj2 (proj2 (credential_resolution_order stub cfg_empty_chemspace
                              env_openai_only tk Chemspace Hinit)))
      as (_ & Hk); [reflexivity | reflexivity | exact Hk].
Defined.

(** C5, as stated, fails: [query_molecule_cas] returns the result of [_run]
    as it is, so a CAS lookup that answers with an integer makes the method
    return that integer, not a string. *)
Lemma cas_result_not_converted :
  exists tk : Toolkit stub_int_cas,
    __init__ stub_int_cas ∅ env_openai_only = Ok tk
    /\ query_molecule_cas tk "aspirin" = Ok (VInt 50782)
    /\ is_str (VInt 50782) = false.
Proof. eexists. repeat split. Qed.

(** C5, amended.  [get_molecular_weight] never returns anything but a
    string: a result of [_run] that is not a string is replaced by its
    [str].  A gated method on an absent handle returns its fixed string.
    Every other call returns the result of [_run] unchanged, a string
    exactly when [_run] gave one. *)
Theorem tool_results (X : Extern) (tk : Toolkit X) (m : tool_name) (a b : string) :
  (forall v, get_molecular_weight tk a = Ok v -> is_str v = true)
  /\ (forall t r, smiles2weight_tool tk = Some t -> _run t a = Ok r ->
        get_molecular_weight tk a = Ok (VStr (py_str X r)))
  /\ (forall msg, unavailable_message m = Some msg -> handle m tk = None ->
        invoke m tk a b = Ok (VStr msg))
  /\ (forall t, m <> T_get_molecular_weight -> handle m tk = Some t ->
        invoke m tk a b = _run t (run_argument m a b)).
Proof.
  split; [| split; [| split]].
  - intros v. apply weight_result_is_str.
  - intros t r. apply weight_bound.
  - intros msg. apply invoke_absent.
  - intros t. apply invoke_bound.
Qed.

Lemma tool_results_witness :
  exists tk : Toolkit stub,
    __init__ stub ∅ env_openai_only = Ok tk
    /\ get_molecular_weight tk "CCO" = Ok (VStr "180")
    /\ invoke T_get_molecule_price tk "CCO" EmptyString
       = Ok (VStr "Molecule price lookup not available. Set CHEMSPACE_API_KEY environment variable.")
    /\ invoke T_check_molecule_similarity tk "CCO" "CCN"
       = _run (echo "MolSimilarity") "CCO CCN".
Proof.
  eexists. split; [reflexivity |].
  match goal with |- context [get_molecular_weight ?t _] => set (tk := t) end.
  split; [| split].
  - apply (proj1 (proj2 (tool_results stub tk T_get_molecular_weight "CCO" EmptyString))
             int_weight (VInt 180)); reflexivity.
  - apply (proj1 (proj2 (proj2 (tool_results stub tk T_get_molecule_price "CCO" EmptyString))));
      reflexivity.
  - apply (proj2 (proj2 (proj2 (tool_results stub tk T_check_molecule_similarity "CCO" "CCN"))));
      [discriminate | reflexivity].
Defined.



(** C7. Constructed with [local_rxn] on, [predict_reaction] delegates to the
    local reaction-prediction tool and returns what its [_run] returns,
    whether or not a reaction-service credential is set. *)
Theorem local_reaction_prediction (X : Extern) cfg env (tk : Toolkit X) :
  __init__ X cfg env = Ok tk ->
  local_rxn_enabled cfg = true ->
  exists T t,
    chemcrow_tools X = Ok T
    /\ RXNPredictLocal T = Ok t
    /\ rxn_predict_tool tk = Some t
    /\ forall q, predict_reaction tk q = _run t q.
Proof.
  intros Hinit Hl.
  destruct (init_ok_inv X cfg env tk Hinit) as (l & T & _ & HT & W).
  pose proof (w_rxn _ _ _ _ _ W) as Hr. rewrite Hl in Hr.
  destruct Hr as [(t & Ht & Hh) _].
  exists T, t. repeat split; try assumption.
  intros q. apply predict_reaction_bound, Hh.
Qed.

Lemma local_reaction_prediction_witness :
  credential_missing cfg_local_rxn env_openai_only Rxn4chem = true
  /\ exists tk : Toolkit stub,
       __init__ stub cfg_local_rxn env_openai_only = Ok tk
       /\ predict_reaction tk "CCO.CC(=O)O" = Ok (VStr "RXNPredictLocal: CCO.CC(=O)O").
Proof.
  split; [reflexivity |].
  destruct (__init__ stub cfg_local_rxn env_openai_only) as [tk | e] eqn:Hinit;
    [| vm_compute in Hinit; discriminate Hinit].
  exists tk. split; [reflexivity |].
  destruct (local_reaction_prediction stub cfg_local_rxn env_openai_only tk Hinit eq_refl)
    as (T & t & HT & Ht & _ & Hq).
  rewrite Hq. injection HT as <-. injection Ht as <-. reflexivity.
Defined.

(** C8. After construction, for every SMILES string on which the weight
    tool returns, [get_molecular_weight] returns a string: the tool's
    result itself when it is a string, its [str] when it is a number or any
    other value.  No call of [get_molecular_weight] returns a non-string. *)
Theorem molecular_weight_is_string (X : Extern) cfg env (tk : Toolkit X) :
  __init__ X cfg env = Ok tk ->
  exists T t,
    chemcrow_tools X = Ok T
    /\ SMILES2Weight T = Ok t
    /\ (forall smiles r, _run t smiles = Ok r ->
          get_molecular_weight tk smiles = Ok (VStr (py_str X r)))
    /\ (forall smiles v, get_molecular_weight tk smiles = Ok v -> is_str v = true).
Proof.
  intros Hinit.
  destruct (init_ok_inv X cfg env tk Hinit) as (l & T & _ & HT & W).
  destruct (w_smiles2weight _ _ _ _ _ W) as (t & Ht & Hh).
  exists T, t. repeat split; try assumption.
  - intros smiles r. apply weight_bound, Hh.
  - intros smiles v. apply weight_result_is_str.
Qed.

Lemma molecular_weight_is_string_witness :
  exists tk : Toolkit stub,
    __init__ stub ∅ env_openai_only = Ok tk
    /\ _run int_weight "CC(=O)Oc1ccccc1C(=O)O" = Ok (VInt 180)
    /\ get_molecular_weight tk "CC(=O)Oc1ccccc1C(=O)O" = Ok (VStr "180").
Proof.
  destruct (__init__ stub ∅ env_openai_only) as [tk | e] eqn:Hinit;
    [| vm_compute in Hinit; discriminate Hinit].
  exists tk. split; [reflexivity | split; [reflexivity |]].
  destruct (molecular_weight_is_string stub ∅ env_openai_only tk Hinit)
    as (T & t & HT & Ht & Hw & _).
  injection HT as <-. injection Ht as <-.
  apply (Hw "CC(=O)Oc1ccccc1C(=O)O" (VInt 180)). reflexivity.
Defined.

(** C9. After construction the reaction-prediction handle and the
    retrosynthesis handle are both bound or both absent. *)
Theorem reaction_handles_coupled (X : Extern) cfg env (tk : Toolkit X) :
  __init__ X cfg env = Ok tk ->
  (is_Some (rxn_predict_tool tk) /\ is_Some (rxn_retro_tool tk))
  \/ (rxn_predict_tool tk = None /\ rxn_retro_tool tk = None).
Proof.
  intros Hinit.
  destruct (init_ok_inv X cfg env tk Hinit) as (l & T & _ & _ & W).
  pose proof (w_rxn _ _ _ _ _ W) as Hr.
  destruct (local_rxn_enabled cfg); [| destruct (truthy (resolve cfg env Rxn4chem))].
  - left. destruct Hr as [Hp Ht]. split; eapply built_is_Some; eassumption.
  - left. destruct Hr as [Hp Ht]. split; eapply built_is_Some; eassumption.
  - right. exact Hr.
Qed.

Lemma reaction_handles_coupled_witness :
  exists tk : Toolkit stub,
    __init__ stub cfg_rxn_only env_openai_only = Ok tk
    /\ ((is_Some (rxn_predict_tool tk) /\ is_Some (rxn_retro_tool tk))
        \/ (rxn_predict_tool tk = None /\ rxn_retro_tool tk = None)).
Proof.
  destruct (__init__ stub cfg_rxn_only env_openai_only) as [tk | e] eqn:Hinit;
    [| vm_compute in Hinit; discriminate Hinit].
  exists tk. split; [reflexivity |].
  exact (reaction_handles_coupled stub cfg_rxn_only env_openai_only tk Hinit).
Defined.

(** C10. After construction the scholarly-search handle is always bound: it
    is the tool built from the LLM client, the OpenAI credential and the
    semantic-scholar credential as resolved, present or not.
    [search_scholarly_literature] has no test and no fixed string: on every
    query it returns what the tool's [_run] returns. *)
Theorem scholar_always_delegates (X : Extern) cfg env (tk : Toolkit X) :
  __init__ X cfg env = Ok tk ->
  exists T t,
    chemcrow_tools X = Ok T
    /\ Scholar2ResultLLM T (llm tk) (resolve cfg env OpenAI)
         (resolve cfg env SemanticScholar) = Ok t
    /\ scholar_tool tk = Some t
    /\ forall query, search_scholarly_literature tk query = _run t query.
Proof.
  intros Hinit.
  destruct (init_ok_inv X cfg env tk Hinit) as (l & T & _ & HT & W).
  destruct (w_scholar _ _ _ _ _ W) as (t & Ht & Hh).
  rewrite <- (w_llm _ _ _ _ _ W) in Ht.
  exists T, t. repeat split; try assumption.
  intros query. unfold search_scholarly_literature. rewrite Hh. reflexivity.
Qed.

Lemma scholar_always_delegates_witness :
  credential_missing ∅ env_openai_only SemanticScholar = true
  /\ exists tk : Toolkit stub,
       __init__ stub ∅ env_openai_only = Ok tk
       /\ search_scholarly_literature tk "aspirin synthesis"
          = Ok (VStr "Scholar2ResultLLM(sk-test, None): aspirin synthesis").
Proof.
  split; [reflexivity |].
  destruct (__init__ stub ∅ env_openai_only) as [tk | e] eqn:Hinit;
    [| vm_compute in Hinit; discriminate Hinit].
  exists tk. split; [reflexivity |].
  destruct (scholar_always_delegates stub ∅ env_openai_only tk Hinit)
    as (T & t & HT & Ht & _ & Hq).
  rewrite Hq. injection HT as <-. vm_compute in Ht. injection Ht as <-. reflexivity.
Defined.

(** ** Further properties of the adapter *)

Lemma string_app_assoc (x y z : string) : (x ++ y) ++ z = x ++ (y ++ z).
Proof.
  induction x as [| c x IH]; [reflexivity |].
  change (String c ((x ++ y) ++ z) = String c (x ++ (y ++ z))).
  rewrite IH. reflexivity.
Qed.

Lemma first_raise_app {A} (xs ys : list (result A)) :
  first_raise (xs ++ ys)
  = match first_raise xs with Some e => Some e | None => first_raise ys end.
Proof.
  induction xs as [| [a | e] xs IH]; cbn; [reflexivity | exact IH | reflexivity].
Qed.

Lemma first_raise_None_returns {A} (xs : list (result A)) :
  first_raise xs = None <-> forallb returns xs = true.
Proof.
  induction xs as [| [a | e] xs IH]; cbn; [tauto | exact IH | split; discriminate].
Qed.

(** Name the credential lookups and the client call in the goal. *)
Ltac name_init_calls X cfg env :=
  unfold __init__;
  change (py_or (dict_get cfg "openai_api_key" VNone) (getenv env "OPENAI_API_KEY"))
    with (resolve cfg env OpenAI);
  cbv zeta;
  rewrite !(api_keys_get cfg env Chemspace : dict_get _ "CHEMSPACE_API_KEY" _ = _);
  rewrite !(api_keys_get cfg env OpenAI : dict_get _ "OPENAI_API_KEY" _ = _);
  rewrite !(api_keys_get cfg env SemanticScholar
            : dict_get _ "SEMANTIC_SCHOLAR_API_KEY" _ = _);
  rewrite !(api_keys_get cfg env Serp : dict_get _ "SERP_API_KEY" _ = _);
  rewrite !(api_keys_get cfg env Rxn4chem : dict_get _ "RXN4CHEM_API_KEY" _ = _);
  fold (build_llm X cfg env); fold (local_rxn_enabled cfg).

(** Run one constructor call of the goal: either it raised, and both sides
    agree on the exception, or it returned and the construction goes on. *)
Ltac run_call :=
  match goal with
  | |- context [mbind _ ?c] =>
      lazymatch c with
      | mbind _ _ => fail
      | _ => destruct c as [? | ?]; [ change (mbind ?f (Ok ?a)) with (f a); cbv beta
                                    | reflexivity ]
      end
  end.

(** The outcome of [__init__] once the client is built and the library
    imported: the exception of the first constructor call that raises, or
    a toolkit when none does. *)
Lemma init_outcome (X : Extern) cfg env l T :
  build_llm X cfg env = Ok l -> chemcrow_tools X = Ok T ->
  match first_raise (construction_calls cfg env l T) with
  | Some e => __init__ X cfg env = Raise e
  | None => exists tk, __init__ X cfg env = Ok tk
  end.
Proof.
  intros Hl HT.
  name_init_calls X cfg env. rewrite Hl.
  change (mbind ?f (Ok ?a)) with (f a). cbv beta. rewrite HT.
  change (mbind ?f (Ok ?a)) with (f a). cbv beta.
  unfold construction_calls, unconditional_calls, optional_calls.
  destruct (truthy (resolve cfg env Chemspace)), (truthy (resolve cfg env Serp)),
    (local_rxn_enabled cfg), (truthy (resolve cfg env Rxn4chem));
    cbn [app first_raise];
    repeat run_call; eexists; reflexivity.
Qed.

(** X1. Construction raises [e] exactly when [e] is the exception of the
    first external call that fails, in the order the constructor makes them:
    the LLM client, the import of [chemcrow.tools], then the tool
    constructors the configuration calls for. *)
Theorem construction_raises_iff (X : Extern) cfg env e :
  __init__ X cfg env = Raise e
  <-> build_llm X cfg env = Raise e
      \/ (exists l, build_llm X cfg env = Ok l /\ chemcrow_tools X = Raise e)
      \/ (exists l T, build_llm X cfg env = Ok l /\ chemcrow_tools X = Ok T
                      /\ first_raise (construction_calls cfg env l T) = Some e).
Proof.
  split.
  - intros H.
    destruct (build_llm X cfg env) as [l | e'] eqn:Hl.
    + destruct (chemcrow_tools X) as [T | e'] eqn:HT.
      * right. right. exists l, T. split; [reflexivity | split; [reflexivity |]].
        pose proof (init_outcome X cfg env l T Hl HT) as Ho.
        destruct (first_raise (construction_calls cfg env l T)) as [e' |].
        -- congruence.
        -- destruct Ho as [tk Htk]. congruence.
      * right. left. exists l. split; [reflexivity |].
        rewrite (init_import_raises X cfg env l e' Hl HT) in H. congruence.
    + left. rewrite (init_llm_raises X cfg env e' Hl) in H. congruence.
  - intros [Hl | [(l & Hl & HT) | (l & T & Hl & HT & Hf)]].
    + apply init_llm_raises, Hl.
    + eapply init_import_raises; eassumption.
    + pose proof (init_outcome X cfg env l T Hl HT) as Ho.
      rewrite Hf in Ho. exact Ho.
Qed.

Lemma construction_raises_iff_witness :
  __init__ stub_broken_optional cfg_chemspace env_openai_only
  = Raise (ExternalError "chemspace unreachable").
Proof.
  apply (proj2 (construction_raises_iff stub_broken_optional cfg_chemspace
                  env_openai_only (ExternalError "chemspace unreachable"))).
  right. right. exists tt, broken_optional_tools.
  split; [reflexivity | split; reflexivity].
Defined.

(** X2. A constructor that is not called cannot fail the construction: with
    no chemspace, serp or reaction-service credential and [local_rxn] off,
    construction succeeds as soon as the client is built, the library is
    imported and the twelve unconditional constructors return, whatever
    the price, web-search and reaction constructors would do; the four
    gated handles are then absent. *)
Theorem skipped_constructors_cannot_fail (X : Extern) cfg env l T :
  credential_missing cfg env Chemspace = true ->
  credential_missing cfg env Serp = true ->
  credential_missing cfg env Rxn4chem = true ->
  local_rxn_enabled cfg = false ->
  build_llm X cfg env = Ok l ->
  chemcrow_tools X = Ok T ->
  forallb returns (unconditional_calls cfg env l T) = true ->
  exists tk,
    __init__ X cfg env = Ok tk
    /\ molecule_price_tool tk = None
    /\ web_search_tool tk = None
    /\ rxn_predict_tool tk = None
    /\ rxn_retro_tool tk = None.
Proof.
  intros Hc Hs Hr Hloc Hl HT Hu.
  pose proof (init_outcome X cfg env l T Hl HT) as Ho.
  unfold construction_calls, optional_calls in Ho.
  rewrite (resolve_missing _ _ _ Hc), (resolve_missing _ _ _ Hs),
    (resolve_missing _ _ _ Hr), Hloc in Ho.
  cbn [app] in Ho. rewrite app_nil_r in Ho.
  rewrite (proj2 (first_raise_None_returns _) Hu) in Ho.
  destruct Ho as [tk Htk]. exists tk. split; [exact Htk |].
  destruct (init_ok_inv X cfg env tk Htk) as (l' & T' & _ & _ & W).
  pose proof (w_molecule_price _ _ _ _ _ W) as Hp.
  pose proof (w_web_search _ _ _ _ _ W) as Hw.
  pose proof (w_rxn _ _ _ _ _ W) as Hx.
  rewrite (resolve_missing _ _ _ Hc) in Hp.
  rewrite (resolve_missing _ _ _ Hs) in Hw.
  rewrite Hloc, (resolve_missing _ _ _ Hr) in Hx.
  destruct Hx. auto.
Qed.

Lemma skipped_constructors_cannot_fail_witness :
  GetMoleculePrice broken_optional_tools VNone = Raise (ExternalError "chemspace unreachable")
  /\ exists tk,
       __init__ stub_broken_optional ∅ env_openai_only = Ok tk
       /\ molecule_price_tool tk = None
       /\ web_search_tool tk = None
       /\ rxn_predict_tool tk = None
       /\ rxn_retro_tool tk = None.
Proof.
  split; [reflexivity |].
  apply (skipped_constructors_cannot_fail stub_broken_optional ∅ env_openai_only
           tt broken_optional_tools); reflexivity.
Defined.

(** X3. The price-lookup handle is absent exactly when the resolved
    chemspace credential is missing or empty; otherwise it is the tool built
    from that credential and [get_molecule_price] returns what its [_run]
    returns. *)
Theorem price_lookup_gate (X : Extern) cfg env (tk : Toolkit X) :
  __init__ X cfg env = Ok tk ->
  (molecule_price_tool tk = None <-> truthy (resolve cfg env Chemspace) = false)
  /\ (truthy (resolve cfg env Chemspace) = true ->
      exists T t,
        chemcrow_tools X = Ok T
        /\ GetMoleculePrice T (resolve cfg env Chemspace) = Ok t
        /\ molecule_price_tool tk = Some t
        /\ forall q, get_molecule_price tk q = _run t q).
Proof.
  intros Hinit.
  destruct (init_ok_inv X cfg env tk Hinit) as (l & T & _ & HT & W).
  pose proof (w_molecule_price _ _ _ _ _ W) as Hp.
  destruct (truthy (resolve cfg env Chemspace)).
  - destruct Hp as (t & Ht & Hh). split.
    + rewrite Hh. split; discriminate.
    + intros _. exists T, t. repeat split; try assumption.
      intros q. unfold get_molecule_price. rewrite Hh. reflexivity.
  - split; [tauto | discriminate].
Qed.

Lemma price_lookup_gate_witness :
  exists tk : Toolkit stub,
    __init__ stub cfg_chemspace env_openai_only = Ok tk
    /\ get_molecule_price tk "CCO" = Ok (VStr "GetMoleculePrice(chemspace-cfg): CCO").
Proof.
  destruct (__init__ stub cfg_chemspace env_openai_only) as [tk | e] eqn:Hinit;
    [| vm_compute in Hinit; discriminate Hinit].
  exists tk. split; [reflexivity |].
  destruct (proj2 (price_lookup_gate stub cfg_chemspace env_openai_only tk Hinit) eq_refl)
    as (T & t & HT & Ht & _ & Hq).
  rewrite Hq. injection HT as <-. injection Ht as <-. reflexivity.
Defined.

(** X4. The web-search handle is absent exactly when the resolved serp
    credential is missing or empty; otherwise it is the tool built from that
    credential and [web_search_chemical] returns what its [_run] returns. *)
Theorem web_search_gate (X : Extern) cfg env (tk : Toolkit X) :
  __init__ X cfg env = Ok tk ->
  (web_search_tool tk = None <-> truthy (resolve cfg env Serp) = false)
  /\ (truthy (resolve cfg env Serp) = true ->
      exists T t,
        chemcrow_tools X = Ok T
        /\ WebSearch T (resolve cfg env Serp) = Ok t
        /\ web_search_tool tk = Some t
        /\ forall q, web_search_chemical tk q = _run t q).
Proof.
  intros Hinit.
  destruct (init_ok_inv X cfg env tk Hinit) as (l & T & _ & HT & W).
  pose proof (w_web_search _ _ _ _ _ W) as Hp.
  destruct (truthy (resolve cfg env Serp)).
  - destruct Hp as (t & Ht & Hh). split.
    + rewrite Hh. split; discriminate.
    + intros _. exists T, t. repeat split; try assumption.
      intros q. unfold web_search_chemical. rewrite Hh. reflexivity.
  - split; [tauto | discriminate].
Qed.

Lemma web_search_gate_witness :
  exists tk : Toolkit stub,
    __init__ stub ∅ env_all_keys = Ok tk
    /\ web_search_chemical tk "aspirin price" = Ok (VStr "WebSearch(serp-env): aspirin price").
Proof.
  destruct (__init__ stub ∅ env_all_keys) as [tk | e] eqn:Hinit;
    [| vm_compute in Hinit; discriminate Hinit].
  exists tk. split; [reflexivity |].
  destruct (proj2 (web_search_gate stub ∅ env_all_keys tk Hinit) eq_refl)
    as (T & t & HT & Ht & _ & Hq).
  rewrite Hq. injection HT as <-. injection Ht as <-. reflexivity.
Defined.

(** X5. The reaction-prediction handle is absent exactly when [local_rxn]
    is off and the resolved reaction-service credential is missing or empty.
    With [local_rxn] off and the credential present it is the remote tool
    built from that credential, and [predict_reaction] returns what its
    [_run] returns. *)
Theorem reaction_prediction_gate (X : Extern) cfg env (tk : Toolkit X) :
  __init__ X cfg env = Ok tk ->
  (rxn_predict_tool tk = None
   <-> local_rxn_enabled cfg = false /\ truthy (resolve cfg env Rxn4chem) = false)
  /\ (local_rxn_enabled cfg = false -> truthy (resolve cfg env Rxn4chem) = true ->
      exists T t,
        chemcrow_tools X = Ok T
        /\ RXNPredict T (resolve cfg env Rxn4chem) = Ok t
        /\ rxn_predict_tool tk = Some t
        /\ forall q, predict_reaction tk q = _run t q).
Proof.
  intros Hinit.
  destruct (init_ok_inv X cfg env tk Hinit) as (l & T & _ & HT & W).
  pose proof (w_rxn _ _ _ _ _ W) as Hr.
  destruct (local_rxn_enabled cfg); [| destruct (truthy (resolve cfg env Rxn4chem))].
  - destruct Hr as [(t & Ht & Hh) _]. split.
    + rewrite Hh. split; [discriminate | intros [? _]; discriminate].
    + discriminate.
  - destruct Hr as [(t & Ht & Hh) _]. split.
    + rewrite Hh. split; [discriminate | intros [_ ?]; discriminate].
    + intros _ _. exists T, t. repeat split; try assumption.
      intros q. apply predict_reaction_bound, Hh.
  - destruct Hr as [Hp _]. split; [tauto | discriminate].
Qed.

Lemma reaction_prediction_gate_witness :
  exists tk : Toolkit stub,
    __init__ stub cfg_rxn_only env_openai_only = Ok tk
    /\ predict_reaction tk "CCO.CC(=O)O" = Ok (VStr "RXNPredict(rxn-key): CCO.CC(=O)O").
Proof.
  destruct (__init__ stub cfg_rxn_only env_openai_only) as [tk | e] eqn:Hinit;
    [| vm_compute in Hinit; discriminate Hinit].
  exists tk. split; [reflexivity |].
  destruct (proj2 (reaction_prediction_gate stub cfg_rxn_only env_openai_only tk Hinit)
              eq_refl eq_refl) as (T & t & HT & Ht & _ & Hq).
  rewrite Hq. injection HT as <-. injection Ht as <-. reflexivity.
Defined.

(** X6. [local_rxn] overrides the reaction-service credential: with
    [local_rxn] on, [retrosynthesis_planning] delegates to the local
    retrosynthesis tool even when a reaction-service credential is set, and
    the remote constructors are not among the calls made. *)
Theorem local_retrosynthesis (X : Extern) cfg env (tk : Toolkit X) :
  __init__ X cfg env = Ok tk ->
  local_rxn_enabled cfg = true ->
  exists l T t,
    build_llm X cfg env = Ok l
    /\ chemcrow_tools X = Ok T
    /\ RXNRetrosynthesisLocal T = Ok t
    /\ rxn_retro_tool tk = Some t
    /\ (forall q, retrosynthesis_planning tk q = _run t q)
    /\ construction_calls cfg env l T
       = (unconditional_calls cfg env l T
          ++ (if truthy (resolve cfg env Chemspace)
              then [GetMoleculePrice T (resolve cfg env Chemspace)] else [])
          ++ (if truthy (resolve cfg env Serp)
              then [WebSearch T (resolve cfg env Serp)] else [])
          ++ [RXNPredictLocal T; RXNRetrosynthesisLocal T])%list.
Proof.
  intros Hinit Hloc.
  destruct (init_ok_inv X cfg env tk Hinit) as (l & T & Hl & HT & W).
  pose proof (w_rxn _ _ _ _ _ W) as Hr. rewrite Hloc in Hr.
  destruct Hr as [_ (t & Ht & Hh)].
  exists l, T, t. repeat split; try assumption.
  - intros q. apply retrosynthesis_bound, Hh.
  - unfold construction_calls, optional_calls. rewrite Hloc. reflexivity.
Qed.

Lemma local_retrosynthesis_witness :
  truthy (resolve cfg_local_and_rxn env_openai_only Rxn4chem) = true
  /\ exists tk : Toolkit stub_broken_optional,
       __init__ stub_broken_optional cfg_local_and_rxn env_openai_only = Ok tk
       /\ retrosynthesis_planning tk "CCO" = Ok (VStr "RXNRetrosynthesisLocal: CCO").
Proof.
  split; [reflexivity |].
  destruct (__init__ stub_broken_optional cfg_local_and_rxn env_openai_only)
    as [tk | e] eqn:Hinit; [| vm_compute in Hinit; discriminate Hinit].
  exists tk. split; [reflexivity |].
  destruct (local_retrosynthesis stub_broken_optional cfg_local_and_rxn env_openai_only
              tk Hinit eq_refl) as (l & T & t & _ & HT & Ht & _ & Hq & _).
  rewrite Hq. injection HT as <-. injection Ht as <-. reflexivity.
Defined.

(** X7. When the configuration gives no usable value for a credential (no
    entry, [None] or the empty string) and the environment variable holds a
    non-empty string, the adapter resolves the credential to the
    environment value and stores it in [api_keys]. *)
Theorem environment_credential_fallback (X : Extern) cfg env (tk : Toolkit X)
    (c : credential) (ev : string) :
  truthy (dict_get cfg (config_option c) VNone) = false ->
  env !! env_var c = Some ev ->
  ev <> EmptyString ->
  __init__ X cfg env = Ok tk ->
  resolve cfg env c = VStr ev
  /\ api_keys tk !! env_var c = Some (VStr ev)
  /\ truthy (dict_get (api_keys tk) (env_var c) VNone) = true.
Proof.
  intros Hc He Hne Hinit.
  destruct (init_ok_inv X cfg env tk Hinit) as (l & T & _ & _ & W).
  assert (Hr : resolve cfg env c = VStr ev).
  { unfold resolve. rewrite py_or_falsy by exact Hc. unfold getenv. rewrite He.
    reflexivity. }
  rewrite (w_api_keys _ _ _ _ _ W), api_keys_lookup, api_keys_get, Hr.
  split; [reflexivity | split; [reflexivity | apply truthy_nonempty, Hne]].
Qed.

Lemma environment_credential_fallback_witness :
  exists tk : Toolkit stub,
    __init__ stub cfg_empty_chemspace env_all_keys = Ok tk
    /\ resolve cfg_empty_chemspace env_all_keys Chemspace = VStr "chemspace-env"
    /\ api_keys tk !! "CHEMSPACE_API_KEY" = Some (VStr "chemspace-env")
    /\ truthy (dict_get (api_keys tk) "CHEMSPACE_API_KEY" VNone) = true.
Proof.
  destruct (__init__ stub cfg_empty_chemspace env_all_keys) as [tk | e] eqn:Hinit;
    [| vm_compute in Hinit; discriminate Hinit].
  exists tk. split; [reflexivity |].
  apply (environment_credential_fallback stub cfg_empty_chemspace env_all_keys tk
           Chemspace "chemspace-env").
  - reflexivity.
  - reflexivity.
  - discriminate.
  - exact Hinit.
Defined.



(** X9. An exception raised by a tool's [_run] reaches the caller of the
    method unchanged, for each of the sixteen methods: nothing is caught,
    retried or translated. *)
Theorem run_exception_propagates (X : Extern) (tk : Toolkit X) (m : tool_name)
    (a b : string) (t : Tool) (e : exn) :
  handle m tk = Some t ->
  _run t (run_argument m a b) = Raise e ->
  invoke m tk a b = Raise e.
Proof.
  intros Hh Hr.
  assert (m = T_get_molecular_weight \/ m <> T_get_molecular_weight) as [-> | Hm]
    by (destruct m; ((left; reflexivity) || (right; discriminate))).
  - cbn [handle invoke run_argument] in *. unfold get_molecular_weight.
    rewrite Hh. cbn [call_run]. rewrite Hr. reflexivity.
  - rewrite (invoke_bound tk m a b t Hm Hh). exact Hr.
Qed.

Lemma run_exception_propagates_witness :
  exists tk : Toolkit stub_failing_runs,
    __init__ stub_failing_runs ∅ env_openai_only = Ok tk
    /\ invoke T_get_molecular_weight tk "not-a-smiles" EmptyString
       = Raise (ExternalError "Invalid SMILES string")
    /\ invoke T_query_molecule_cas tk "aspirin" EmptyString
       = Raise (ExternalError "PubChem unreachable").
Proof.
  eexists. split; [reflexivity |].
  match goal with |- context [invoke _ ?t _ _] => set (tk := t) end.
  split.
  - apply (run_exception_propagates stub_failing_runs tk T_get_molecular_weight
             "not-a-smiles" EmptyString (failing_tool "Invalid SMILES string"));
      reflexivity.
  - apply (run_exception_propagates stub_failing_runs tk T_query_molecule_cas
             "aspirin" EmptyString (failing_tool "PubChem unreachable"));
      reflexivity.
Defined.

(** X10. After construction each of the twelve ungated methods is wired to
    the tool of its own constructor ([check_patent] to [PatentCheck],
    [convert_name_to_smiles] to [Query2SMILES] built with the chemspace
    credential as resolved, [get_safety_summary] to [SafetySummary] built
    with the toolkit's LLM client, and so on); each but
    [get_molecular_weight] returns that tool's [_run] result as it is. *)
Theorem ungated_methods_wiring (X : Extern) cfg env (tk : Toolkit X) :
  __init__ X cfg env = Ok tk ->
  exists T,
    chemcrow_tools X = Ok T
    /\ forall m c,
         unconditional_constructor m cfg env (llm tk) T = Some c ->
         exists t,
           c = Ok t
           /\ handle m tk = Some t
           /\ (m <> T_get_molecular_weight ->
               forall a b, invoke m tk a b = _run t (run_argument m a b)).
Proof.
  intros Hinit.
  destruct (init_ok_inv X cfg env tk Hinit) as (l & T & _ & HT & W).
  exists T. split; [exact HT |].
  intros m c Hc.
  assert (Hb : built c (handle m tk)).
  { destruct W. subst l.
    destruct m; cbn [unconditional_constructor] in Hc; try discriminate Hc;
      injection Hc as <-; cbn [handle]; assumption. }
  destruct Hb as (t & Ht & Hh). exists t.
  split; [exact Ht | split; [exact Hh |]].
  intros Hm a b. apply invoke_bound; assumption.
Qed.

Lemma ungated_methods_wiring_witness :
  exists tk : Toolkit stub,
    __init__ stub ∅ env_all_keys = Ok tk
    /\ invoke T_convert_name_to_smiles tk "aspirin" EmptyString
       = Ok (VStr "Query2SMILES(chemspace-env): aspirin")
    /\ invoke T_check_patent tk "CCO" EmptyString = Ok (VStr "PatentCheck: CCO").
Proof.
  destruct (__init__ stub ∅ env_all_keys) as [tk | e] eqn:Hinit;
    [| vm_compute in Hinit; discriminate Hinit].
  exists tk. split; [reflexivity |].
  destruct (ungated_methods_wiring stub ∅ env_all_keys tk Hinit) as (T & HT & Hw).
  injection HT as <-.
  split.
  - destruct (Hw T_convert_name_to_smiles _ eq_refl) as (t & Ht & _ & Hq).
    rewrite Hq by discriminate. vm_compute in Ht. injection Ht as <-. reflexivity.
  - destruct (Hw T_check_patent _ eq_refl) as (t & Ht & _ & Hq).
    rewrite Hq by discriminate. injection Ht as <-. reflexivity.
Defined.

(** X11. [check_molecule_similarity] joins its two arguments with one
    space and passes no other mark of where the first ends: a space inside
    an argument moves the boundary, and both calls below hand the same query
    to the similarity tool. *)
Theorem similarity_arguments_joined (X : Extern) (tk : Toolkit X) (x y z : string) :
  check_molecule_similarity tk (x ++ " " ++ y) z
  = check_molecule_similarity tk x (y ++ " " ++ z).
Proof.
  unfold check_molecule_similarity. f_equal.
  rewrite !string_app_assoc. reflexivity.
Qed.

(** ** The example scripts *)

Example interactive_run :
  AgentDemo.run_interactive_demo (counting_framework (inl 0))
    [Line "  "; Line "aspirin CAS?"; Line "fail"; InputRaises (Exc (ExternalError "EOF"));
     Line "caffeine weight?"; Line " Quit "; Line "ignored"]
  = (["aspirin CAS?"; "fail"; "caffeine weight?"], Completed).
Proof. reflexivity. Qed.

Example query2cas_agent_run :
  Query2casDemo.demo_agent_with_query2cas stub (counting_framework (inl 0)) ∅
    [Line "aspirin CAS?"; Line "fail"; Line "caffeine weight?"; Line "q"]
  = ([Query2casDemo.sample_query; "aspirin CAS?"; "fail"], Escaped (SystemExit 1)).
Proof. reflexivity. Qed.

Example query2cas_agent_fallback :
  Query2casDemo.main stub (counting_framework (inr FileNotFoundError)) env_openai_only
    [Line "q"] ["demo.py"; "--agent"]
  = ([], Completed).
Proof. reflexivity. Qed.

Lemma after_query_sent {A} q (s : session A) : sent (after_query q s) = q :: sent s.
Proof. reflexivity. Qed.

Lemma after_query_outcome {A} q (s : session A) : outcome (after_query q s) = outcome s.
Proof. reflexivity. Qed.

Lemma exit_command_not_blank s : is_exit_command s = true -> is_blank s = false.
Proof.
  unfold is_exit_command, is_blank.
  destruct (strip s); [discriminate | reflexivity].
Qed.

(** The interactive loop on typed lines, with an agent that raises only
    instances of [Exception]. *)
Lemma interactive_loop_lines (F : Framework) (agent : Agent F) (n : nat)
    (lines : list string) :
  raises_only_Exceptions F ->
  sent (AgentDemo.interactive_loop F agent n (map Line lines)).1
  = List.filter (fun s => negb (is_blank s)) (before_exit lines)
  /\ outcome (AgentDemo.interactive_loop F agent n (map Line lines)).1
     = if existsb is_exit_command lines then Completed else AwaitingInput.
Proof.
  intros HF. revert agent n.
  induction lines as [| s rest IH]; intros agent n; [split; reflexivity |].
  cbn [map AgentDemo.interactive_loop before_exit existsb].
  destruct (is_exit_command s) eqn:Hexit; [split; reflexivity |].
  cbn [orb List.filter].
  destruct (is_blank s) eqn:Hblank; cbn [negb]; [apply IH |].
  pose proof (HF agent s) as Hraise.
  destruct (chat_streamed F agent s) as [agent' [e |]]; cbn [snd] in Hraise.
  - specialize (Hraise e eq_refl).
    destruct e; try discriminate Hraise; cbn [is_Exception];
      destruct (AgentDemo.interactive_loop F agent' n (map Line rest)) as [s' n'] eqn:Hl;
      specialize (IH agent' n); rewrite Hl in IH; cbn [fst] in *;
      rewrite after_query_sent, after_query_outcome;
      destruct IH as [-> ->]; split; reflexivity.
  - destruct (AgentDemo.interactive_loop F agent' (S n) (map Line rest)) as [s' n'] eqn:Hl.
    specialize (IH agent' (S n)). rewrite Hl in IH. cbn [fst] in *.
    rewrite after_query_sent, after_query_outcome.
    destruct IH as [-> ->]. split; reflexivity.
Qed.

(** X12. In the interactive demo an agent that raises only instances of
    [Exception] never ends the session: the queries handed to it are
    exactly the typed lines that are not blank, unchanged and in order, up
    to the first exit command; the demo returns once an exit command is
    typed and is otherwise waiting for the next line. *)
Theorem interactive_session_queries (F : Framework) (agent : Agent F)
    (lines : list string) :
  load_agent F = inl agent ->
  raises_only_Exceptions F ->
  AgentDemo.run_interactive_demo F (map Line lines)
  = (List.filter (fun s => negb (is_blank s)) (before_exit lines),
     if existsb is_exit_command lines then Completed else AwaitingInput).
Proof.
  intros Hload HF. unfold AgentDemo.run_interactive_demo. rewrite Hload.
  destruct (interactive_loop_lines F agent 0 lines HF) as [-> ->].
  destruct (existsb is_exit_command lines); reflexivity.
Qed.

Lemma counting_raises_only_Exceptions load :
  raises_only_Exceptions (counting_framework load).
Proof.
  intros agent q e. cbn. destruct (String.eqb q "fail"); [| discriminate].
  intros [= <-]. reflexivity.
Qed.

Lemma interactive_session_queries_witness :
  AgentDemo.run_interactive_demo (counting_framework (inl 0))
    (map Line ["  "; "aspirin CAS?"; "fail"; "QUIT"; "ignored"])
  = (["aspirin CAS?"; "fail"], Completed).
Proof.
  exact (interactive_session_queries (counting_framework (inl 0)) 0
           ["  "; "aspirin CAS?"; "fail"; "QUIT"; "ignored"]
           eq_refl (counting_raises_only_Exceptions (inl 0))).
Defined.

Lemma agent_loop_never_raises (F : Framework) (agent : Agent F) (lines : list string) :
  never_raises F ->
  sent (Query2casDemo.agent_loop F agent (map Line lines))
  = List.filter (fun s => negb (is_blank s)) (before_exit lines)
  /\ outcome (Query2casDemo.agent_loop F agent (map Line lines))
     = if existsb is_exit_command lines then Completed else AwaitingInput.
Proof.
  intros HF. revert agent.
  induction lines as [| s rest IH]; intros agent; [split; reflexivity |].
  cbn [map Query2casDemo.agent_loop before_exit existsb].
  destruct (is_exit_command s) eqn:Hexit; [split; reflexivity |].
  cbn [orb List.filter].
  destruct (is_blank s) eqn:Hblank; cbn [negb]; [apply IH |].
  pose proof (HF agent s) as Hret.
  destruct (chat_streamed F agent s) as [agent' r]. cbn [snd] in Hret. subst r.
  rewrite after_query_sent, after_query_outcome.
  destruct (IH agent') as [-> ->]. split; reflexivity.
Qed.

Lemma never_raises_only_Exceptions F : never_raises F -> raises_only_Exceptions F.
Proof. intros H agent q e He. rewrite H in He. discriminate He. Qed.

(** X13. With an agent that answers every query, the agent session of the
    Query2CAS demo and the interactive demo treat typed lines alike: the
    first sends its sample query and then exactly the queries the second
    sends, and both end the same way. *)
Theorem agent_sessions_agree (X : Extern) (F : Framework) (env : gmap string string)
    (agent : Agent F) (lines : list string) :
  load_agent F = inl agent ->
  never_raises F ->
  Query2casDemo.demo_agent_with_query2cas X F env (map Line lines)
  = (Query2casDemo.sample_query :: (AgentDemo.run_interactive_demo F (map Line lines)).1,
     (AgentDemo.run_interactive_demo F (map Line lines)).2).
Proof.
  intros Hload HF.
  unfold Query2casDemo.demo_agent_with_query2cas, AgentDemo.run_interactive_demo,
    Query2casDemo.agent_try.
  rewrite Hload.
  pose proof (HF agent Query2casDemo.sample_query) as Hs.
  destruct (chat_streamed F agent Query2casDemo.sample_query) as [agent' r].
  cbn [snd] in Hs. subst r.
  rewrite after_query_sent, after_query_outcome. cbn [fst snd].
  destruct (agent_loop_never_raises F agent' lines HF) as [-> ->].
  destruct (interactive_loop_lines F agent 0 lines
              (never_raises_only_Exceptions F HF)) as [-> ->].
  destruct (existsb is_exit_command lines); reflexivity.
Qed.

Lemma agent_sessions_agree_witness :
  Query2casDemo.demo_agent_with_query2cas stub answering_framework ∅
    (map Line ["aspirin CAS?"; " "; "Exit"])
  = ([Query2casDemo.sample_query; "aspirin CAS?"], Completed).
Proof.
  exact (agent_sessions_agree stub answering_framework ∅ 0
           ["aspirin CAS?"; " "; "Exit"] eq_refl (fun _ _ => eq_refl)).
Defined.

Lemma outer_except_no_Exception tried e :
  AgentDemo.outer_except tried = Escaped e -> is_Exception e = false.
Proof.
  destruct tried as [| | e0]; cbn; try discriminate.
  destruct (is_Exception e0) eqn:He0; intros [= <-]; [reflexivity | exact He0].
Qed.

Lemma basic_demo_endings X F env :
  Query2casDemo.demo_query2cas_basic X F env = Completed
  \/ Query2casDemo.demo_query2cas_basic X F env = Escaped (Exc ImportError)
  \/ Query2casDemo.demo_query2cas_basic X F env = Escaped (SystemExit 1).
Proof.
  unfold Query2casDemo.demo_query2cas_basic.
  destruct (Query2casDemo.demo_try X F env) as [u | []]; auto.
Qed.

Lemma agent_except_Exception X F env tried e :
  Query2casDemo.agent_except X F env tried = Escaped e ->
  is_Exception e = true -> e = Exc ImportError.
Proof.
  destruct tried as [| | e0]; cbn [Query2casDemo.agent_except]; try discriminate.
  destruct e0 as [e0 | | |]; cbn [is_Exception].
  - intros [= <-]. discriminate.
  - destruct (basic_demo_endings X F env) as [-> | [-> | ->]];
      [discriminate | intros [= <-]; reflexivity | intros [= <-]; discriminate].
  - intros [= <-]. discriminate.
  - intros [= <-]. discriminate.
Qed.

(** X14. Printing aside, no [Exception] raised by loading the agent, by
    the agent's answers or by reading a line leaves the agent demo:
    whatever these do and whatever the arguments, a run of its [main]
    returns, exits through [sys.exit] or is interrupted.  Of the
    [Exception]s raised by these calls and by the toolkit, the only one
    that leaves the Query2CAS demo is the [ImportError] its basic demo
    raises again. *)
Theorem exceptions_leaving_the_scripts (X : Extern) (F : Framework)
    (env : gmap string string) (inputs : list input_event) (argv : list string)
    (e : pyexc) :
  ((AgentDemo.main F inputs argv).2 = Escaped e -> is_Exception e = false)
  /\ ((Query2casDemo.main X F env inputs argv).2 = Escaped e ->
      is_Exception e = true -> e = Exc ImportError).
Proof.
  split.
  - unfold AgentDemo.main, AgentDemo.run_demo_examples, AgentDemo.run_interactive_demo.
    destruct argv as [| prog [| arg more]];
      try destruct (String.eqb arg "--examples");
      destruct (load_agent F) as [agent | e0]; cbn [snd];
      apply outer_except_no_Exception.
  - unfold Query2casDemo.main, Query2casDemo.demo_agent_with_query2cas.
    assert (Hb : Query2casDemo.demo_query2cas_basic X F env = Escaped e ->
                 is_Exception e = true -> e = Exc ImportError).
    { destruct (basic_demo_endings X F env) as [-> | [-> | ->]];
        [discriminate | intros [= <-]; reflexivity | intros [= <-]; discriminate]. }
    destruct argv as [| prog [| arg more]]; cbn [snd]; try exact Hb.
    destruct (String.eqb arg "--help" || String.eqb arg "-h"); [discriminate |].
    destruct (String.eqb arg "--agent"); cbn [snd]; [| exact Hb].
    destruct (load_agent F) as [agent | e0]; cbn [snd];
      apply agent_except_Exception.
Qed.

Lemma exceptions_leaving_the_scripts_witness :
  (Query2casDemo.main stub_no_chemcrow answering_framework env_openai_only [] ["demo.py"]).2
  = Escaped (Exc ImportError)
  /\ (AgentDemo.main (counting_framework (inr (Exc ImportError))) [] ["demo.py"]).2
     = Escaped (SystemExit 1).
Proof.
  split; [reflexivity |].
  destruct (AgentDemo.main (counting_framework (inr (Exc ImportError))) [] ["demo.py"]).2
    as [| | e] eqn:He; try (vm_compute in He; discriminate He).
  pose proof (proj1 (exceptions_leaving_the_scripts stub
                       (counting_framework (inr (Exc ImportError))) ∅ [] ["demo.py"] e)
                He) as Hne.
  vm_compute in He. injection He as <-. reflexivity.
Defined.

(** X15. When the agent configuration file is missing, the agent mode of
    the Query2CAS demo reads no line and sends no query: it runs the basic
    demo, so the script ends as it does without [--agent]. *)
Theorem missing_agent_config_falls_back (X : Extern) (F : Framework)
    (env : gmap string string) (inputs : list input_event) (prog : string)
    (more : list string) :
  load_agent F = inr FileNotFoundError ->
  Query2casDemo.main X F env inputs (prog :: "--agent" :: more)
  = ([], Query2casDemo.demo_query2cas_basic X F env)
  /\ Query2casDemo.main X F env inputs (prog :: "--agent" :: more)
     = Query2casDemo.main X F env inputs [prog].
Proof.
  intros Hload.
  unfold Query2casDemo.main, Query2casDemo.demo_agent_with_query2cas.
  cbn [String.eqb Ascii.eqb Bool.eqb orb]. rewrite Hload. split; reflexivity.
Qed.

Lemma missing_agent_config_falls_back_witness :
  Query2casDemo.main stub (counting_framework (inr FileNotFoundError)) env_openai_only
    [Line "aspirin CAS?"] ["demo.py"; "--agent"]
  = ([], Completed).
Proof.
  apply (proj1 (missing_agent_config_falls_back stub
                  (counting_framework (inr FileNotFoundError)) env_openai_only
                  [Line "aspirin CAS?"] "demo.py" [] eq_refl)).
Defined.

(** X16. The basic demo raises an [ImportError] again instead of exiting:
    when the client is built and [chemcrow.tools] cannot be imported the
    [ImportError] leaves the demo, so the [sys.exit(1)] written after
    [raise e] is never reached; a client that cannot be built for another
    reason ends the demo in [sys.exit(1)]. *)
Theorem basic_demo_import_error (X : Extern) (F : Framework)
    (env : gmap string string) :
  toolkit_imports F = Ok tt ->
  (forall l, build_llm X (Query2casDemo.demo_config env) env = Ok l ->
             chemcrow_tools X = Raise ImportError ->
             Query2casDemo.demo_query2cas_basic X F env = Escaped (Exc ImportError))
  /\ (forall e, build_llm X (Query2casDemo.demo_config env) env = Raise e ->
                e <> ImportError ->
                Query2casDemo.demo_query2cas_basic X F env = Escaped (SystemExit 1)).
Proof.
  intros Himp.
  unfold Query2casDemo.demo_query2cas_basic, Query2casDemo.demo_try.
  rewrite Himp. change (mbind ?f (Ok ?a)) with (f a). cbv beta.
  split.
  - intros l Hl HT. rewrite (init_import_raises X _ env l ImportError Hl HT).
    reflexivity.
  - intros e He Hne. rewrite (init_llm_raises X _ env e He).
    destruct e; [reflexivity | congruence | reflexivity].
Qed.

Lemma basic_demo_import_error_witness :
  Query2casDemo.demo_query2cas_basic stub_no_chemcrow answering_framework env_openai_only
  = Escaped (Exc ImportError)
  /\ Query2casDemo.demo_query2cas_basic stub_strict_llm answering_framework ∅
     = Escaped (SystemExit 1).
Proof.
  split.
  - apply (proj1 (basic_demo_import_error stub_no_chemcrow answering_framework
                    env_openai_only eq_refl) tt); reflexivity.
  - apply (proj2 (basic_demo_import_error stub_strict_llm answering_framework ∅ eq_refl)
             (ExternalError "Did not find openai_api_key")); [reflexivity | discriminate].
Defined.



Lemma examples_loop_all_sent (F : Framework) (agent : Agent F) (queries : list string) :
  raises_only_Exceptions F ->
  sent (AgentDemo.examples_loop F agent queries) = queries
  /\ outcome (AgentDemo.examples_loop F agent queries) = Completed.
Proof.
  intros HF. revert agent.
  induction queries as [| q rest IH]; intros agent; [split; reflexivity |].
  cbn [AgentDemo.examples_loop].
  pose proof (HF agent q) as Hraise.
  destruct (chat_streamed F agent q) as [agent' [e |]]; cbn [snd] in Hraise.
  - rewrite (Hraise e eq_refl).
    rewrite after_query_sent, after_query_outcome.
    destruct (IH agent') as [-> ->]. split; reflexivity.
  - rewrite after_query_sent, after_query_outcome.
    destruct (IH agent') as [-> ->]. split; reflexivity.
Qed.

(** X18. With [--examples] the agent demo reads no line and hands the
    agent its three example queries in order; a query on which the agent
    raises an [Exception] does not keep the later ones from being sent, and
    the demo returns. *)
Theorem examples_all_sent (F : Framework) (agent : Agent F)
    (inputs : list input_event) (prog : string) (more : list string) :
  load_agent F = inl agent ->
  raises_only_Exceptions F ->
  AgentDemo.main F inputs (prog :: "--examples" :: more)
  = (AgentDemo.example_queries, Completed).
Proof.
  intros Hload HF.
  unfold AgentDemo.main. cbn [String.eqb Ascii.eqb Bool.eqb].
  unfold AgentDemo.run_demo_examples. rewrite Hload.
  destruct (examples_loop_all_sent F agent AgentDemo.example_queries HF) as [-> ->].
  reflexivity.
Qed.

Lemma examples_all_sent_witness :
  AgentDemo.main (counting_framework (inl 0)) [Line "fail"] ["demo.py"; "--examples"]
  = (["What is the CAS number for aspirin?";
      "Convert glucose to SMILES notation";
      "What's the molecular weight of caffeine?"], Completed).
Proof.
  exact (examples_all_sent (counting_framework (inl 0)) 0 [Line "fail"] "demo.py" []
           eq_refl (counting_raises_only_Exceptions (inl 0))).
Defined.

Lemma seq_returns {A B} (c : result A) (k : result B) :
  returns (c ≫= fun _ => k) = returns c && returns k.
Proof. destruct c; reflexivity. Qed.

Lemma returns_then_Ok {A B} (c : result A) (f : A -> B) :
  returns (c ≫= fun a => Ok (f a)) = returns c.
Proof. destruct c; reflexivity. Qed.

Lemma basic_demo_ending_iff (r : result unit) :
  match r with
  | Ok _ => Completed
  | Raise ImportError => Escaped (Exc ImportError)
  | Raise _ => Escaped (SystemExit 1)
  end = Completed
  <-> returns r = true.
Proof. destruct r as [u | []]; cbn; split; (reflexivity || discriminate). Qed.

(** X19. The basic demo needs no gated capability and none of the tools
    it does not call: once its imports succeed and the toolkit is
    constructed, it completes exactly when the tools of the eight ungated
    methods it calls return on the query each is given, whatever the
    optional credentials and whatever the other tools would do. *)
Theorem basic_demo_completes (X : Extern) (F : Framework) (env : gmap string string)
    (tk : Toolkit X) :
  toolkit_imports F = Ok tt ->
  __init__ X (Query2casDemo.demo_config env) env = Ok tk ->
  (Query2casDemo.demo_query2cas_basic X F env = Completed
   <-> forall m q, In (m, q) demo_queries ->
         exists t, handle m tk = Some t /\ returns (_run t q) = true).
Proof.
  intros Himp Hinit.
  unfold Query2casDemo.demo_query2cas_basic, Query2casDemo.demo_try.
  rewrite Himp. change (mbind ?f (Ok ?a)) with (f a). cbv beta.
  rewrite Hinit. change (mbind ?f (Ok ?a)) with (f a). cbv beta.
  etransitivity; [apply basic_demo_ending_iff |].
  destruct (init_ok_inv X _ env tk Hinit) as (l & T & _ & _ & W).
  destruct (w_query2cas _ _ _ _ _ W) as (t1 & _ & H1).
  destruct (w_query2smiles _ _ _ _ _ W) as (t2 & _ & H2).
  destruct (w_smiles2name _ _ _ _ _ W) as (t3 & _ & H3).
  destruct (w_smiles2weight _ _ _ _ _ W) as (t4 & _ & H4).
  destruct (w_func_groups _ _ _ _ _ W) as (t5 & _ & H5).
  destruct (w_patent_check _ _ _ _ _ W) as (t6 & _ & H6).
  destruct (w_explosive_check _ _ _ _ _ W) as (t7 & _ & H7).
  destruct (w_control_chem_check _ _ _ _ _ W) as (t8 & _ & H8).
  unfold Query2casDemo.demo_toolkit_calls, query_molecule_cas, convert_name_to_smiles,
    convert_smiles_to_name, get_molecular_weight, get_functional_groups,
    check_patent, check_explosive, check_controlled_chemical.
  rewrite H1, H2, H3, H4, H5, H6, H7, H8. cbn [call_run].
  rewrite !seq_returns, returns_then_Ok. cbn [returns]. rewrite andb_true_r.
  split.
  - intros Hc m q Hin. cbn [demo_queries In] in Hin.
    repeat (apply andb_true_iff in Hc as [? Hc]).
    destruct Hin as [Hin|[Hin|[Hin|[Hin|[Hin|[Hin|[Hin|[Hin|[]]]]]]]]];
      injection Hin as <- <-; cbn [handle]; eexists; (split; [eassumption | assumption]).
  - intros Hall.
    destruct (Hall T_query_molecule_cas "aspirin") as (t & Hh & Hr);
      [cbn; tauto | cbn [handle] in Hh; rewrite H1 in Hh; injection Hh as <-; rewrite Hr; clear Hr].
    destruct (Hall T_convert_name_to_smiles "aspirin") as (t & Hh & Hr);
      [cbn; tauto | cbn [handle] in Hh; rewrite H2 in Hh; injection Hh as <-; rewrite Hr; clear Hr].
    destruct (Hall T_convert_smiles_to_name Query2casDemo.test_smiles) as (t & Hh & Hr);
      [cbn; tauto | cbn [handle] in Hh; rewrite H3 in Hh; injection Hh as <-; rewrite Hr; clear Hr].
    destruct (Hall T_get_molecular_weight Query2casDemo.test_smiles) as (t & Hh & Hr);
      [cbn; tauto | cbn [handle] in Hh; rewrite H4 in Hh; injection Hh as <-; rewrite Hr; clear Hr].
    destruct (Hall T_get_functional_groups Query2casDemo.test_smiles) as (t & Hh & Hr);
      [cbn; tauto | cbn [handle] in Hh; rewrite H5 in Hh; injection Hh as <-; rewrite Hr; clear Hr].
    destruct (Hall T_check_patent Query2casDemo.test_smiles) as (t & Hh & Hr);
      [cbn; tauto | cbn [handle] in Hh; rewrite H6 in Hh; injection Hh as <-; rewrite Hr; clear Hr].
    destruct (Hall T_check_explosive Query2casDemo.test_smiles) as (t & Hh & Hr);
      [cbn; tauto | cbn [handle] in Hh; rewrite H7 in Hh; injection Hh as <-; rewrite Hr; clear Hr].
    destruct (Hall T_check_controlled_chemical Query2casDemo.test_smiles) as (t & Hh & Hr);
      [cbn; tauto | cbn [handle] in Hh; rewrite H8 in Hh; injection Hh as <-; rewrite Hr; clear Hr].
    reflexivity.
Qed.

Lemma basic_demo_completes_witness :
  (exists tk : Toolkit stub_demo_only,
     __init__ stub_demo_only (Query2casDemo.demo_config env_openai_only) env_openai_only
     = Ok tk
     /\ search_scholarly_literature tk "aspirin" = Raise (ExternalError "not in the demo"))
  /\ Query2casDemo.demo_query2cas_basic stub_demo_only answering_framework env_openai_only
     = Completed.
Proof.
  split; [eexists; split; reflexivity |].
  pose proof (fun tk Hinit =>
                proj2 (basic_demo_completes stub_demo_only answering_framework
                         env_openai_only tk eq_refl Hinit)) as H.
  eapply H; [reflexivity |].
  intros m q Hin. cbn [demo_queries In] in Hin.
  destruct Hin as [Hin|[Hin|[Hin|[Hin|[Hin|[Hin|[Hin|[Hin|[]]]]]]]]];
    injection Hin as <- <-; eexists; split; reflexivity.
Defined.

(** *** The exit command *)

Lemma app_String c (x y : string) : String c x ++ y = String c (x ++ y).
Proof. reflexivity. Qed.

Lemma lstrip_all_space w : all_space w = true -> lstrip w = EmptyString.
Proof.
  induction w as [| c w IH]; [reflexivity |].
  cbn [all_space lstrip]. intros H. apply andb_true_iff in H as [-> Hw]. auto.
Qed.

Lemma rstrip_all_space w : all_space w = true -> rstrip w = EmptyString.
Proof.
  induction w as [| c w IH]; [reflexivity |].
  cbn [all_space rstrip]. intros H. apply andb_true_iff in H as [-> Hw].
  rewrite (IH Hw). reflexivity.
Qed.

Lemma lstrip_app_space w s : all_space w = true -> lstrip (w ++ s) = lstrip s.
Proof.
  induction w as [| c w IH]; [reflexivity |].
  cbn [all_space]. intros H. apply andb_true_iff in H as [Hc Hw].
  rewrite app_String. cbn [lstrip]. rewrite Hc. auto.
Qed.

Lemma rstrip_app_space s w : all_space w = true -> rstrip (s ++ w) = rstrip s.
Proof.
  intros Hw. induction s as [| c s IH].
  - apply rstrip_all_space, Hw.
  - rewrite app_String. cbn [rstrip]. rewrite IH. reflexivity.
Qed.

Lemma strip_padding w1 s w2 :
  all_space w1 = true -> all_space w2 = true -> strip (w1 ++ s ++ w2) = strip s.
Proof.
  intros H1 H2. unfold strip. rewrite (lstrip_app_space w1 _ H1).
  induction s as [| c s IH].
  - cbn [lstrip]. change (EmptyString ++ w2) with w2.
    rewrite (lstrip_all_space w2 H2). reflexivity.
  - rewrite app_String. cbn [lstrip]. destruct (isspace c); [exact IH |].
    rewrite <- app_String. apply rstrip_app_space, H2.
Qed.

Lemma isspace_lower_char c : isspace (lower_char c) = isspace c.
Proof. destruct c as [[] [] [] [] [] [] [] []]; reflexivity. Qed.

Lemma lower_char_idempotent c : lower_char (lower_char c) = lower_char c.
Proof. destruct c as [[] [] [] [] [] [] [] []]; reflexivity. Qed.

Lemma lower_idempotent s : lower (lower s) = lower s.
Proof.
  induction s as [| c s IH]; [reflexivity |].
  cbn [lower]. rewrite lower_char_idempotent, IH. reflexivity.
Qed.

Lemma lstrip_lower s : lstrip (lower s) = lower (lstrip s).
Proof.
  induction s as [| c s IH]; [reflexivity |].
  cbn [lower lstrip]. rewrite isspace_lower_char.
  destruct (isspace c); [exact IH | reflexivity].
Qed.

Lemma rstrip_lower s : rstrip (lower s) = lower (rstrip s).
Proof.
  induction s as [| c s IH]; [reflexivity |].
  cbn [lower rstrip]. rewrite IH, isspace_lower_char.
  destruct (rstrip s); cbn [lower]; [destruct (isspace c) |]; reflexivity.
Qed.

Lemma strip_lower s : strip (lower s) = lower (strip s).
Proof. unfold strip. rewrite lstrip_lower, rstrip_lower. reflexivity. Qed.

(** X20. Both sessions recognise the exit command whatever its letter case
    and whatever white space surrounds it: a line is an exit command
    exactly when its lower-case form is, and padding a line with white
    space on either side changes neither that nor whether it is blank. *)
Theorem exit_command_spelling (s w1 w2 : string) :
  all_space w1 = true ->
  all_space w2 = true ->
  is_exit_command (w1 ++ s ++ w2) = is_exit_command s
  /\ is_blank (w1 ++ s ++ w2) = is_blank s
  /\ is_exit_command (lower s) = is_exit_command s.
Proof.
  intros H1 H2. unfold is_exit_command, is_blank.
  rewrite (strip_padding w1 s w2 H1 H2), strip_lower, lower_idempotent.
  auto.
Qed.

Lemma exit_command_spelling_witness :
  is_exit_command "  QuIt " = true
  /\ is_blank "  QuIt " = false.
Proof.
  destruct (exit_command_spelling "QuIt" "  " " " eq_refl eq_refl) as (He & Hb & Hl).
  change ("  QuIt ") with ("  " ++ "QuIt" ++ " ").
  rewrite He, Hb, <- Hl. split; reflexivity.
Defined.
